(** * Connection set-up of the Milvus node client, embedded in Rocq

    The development follows two source files of the repository:
    - the [BaseClient] class (gRPC client base: configuration, TLS mode,
      credentials, channel options, timeout, compatibility gate);
    - [MilvusNode.createCollection] of [src/milvus/index.ts].

    JavaScript values are modelled at the TypeScript types the code declares:
    an optional property is an [option], a [string | number] is a sum, a plain
    object used as a dictionary is a [gmap].  Host libraries (fs, protobufjs,
    grpc-js) and the constants imported from the package index are taken as an
    interface, so that every statement holds for every behaviour they may
    have. *)

From Stdlib Require Import ZArith String List Bool Lia.
From stdpp Require Import gmap strings.
Import ListNotations.
Open Scope string_scope.

(** ** JavaScript truthiness and defaulting *)

Definition is_empty (s : string) : bool :=
  match s with
  | EmptyString => true
  | String _ _ => false
  end.

(** [!!x] for [x : string | undefined]: the empty string and [undefined] are
    falsy. *)
Definition truthy_str (x : option string) : bool :=
  match x with
  | Some s => negb (is_empty s)
  | None => false
  end.

(** [!!x] for [x : boolean | undefined]. *)
Definition truthy_bool (x : option bool) : bool :=
  match x with
  | Some b => b
  | None => false
  end.

(** [!!x] for an optional object: any object is truthy. *)
Definition truthy_obj {A : Type} (x : option A) : bool :=
  match x with
  | Some _ => true
  | None => false
  end.

(** [x || d] on strings. *)
Definition or_str (x : option string) (d : string) : string :=
  match x with
  | Some s => if is_empty s then d else s
  | None => d
  end.

(** [x ?? d]. *)
Definition nullish {A : Type} (x : option A) (d : A) : A :=
  match x with
  | Some a => a
  | None => d
  end.

(** JavaScript numbers as far as this code looks at them: a finite value (in
    the unit the field uses, here milliseconds or a gRPC option value) or
    [NaN].  Only zero and [NaN] are falsy. *)
Inductive number : Type :=
  | Num (z : Z)
  | NaN.

Definition truthy_num (n : number) : bool :=
  match n with
  | Num z => negb (z =? 0)%Z
  | NaN => false
  end.

(** ** Thrown values and completions *)

(** What a [throw] or a rejected promise carries: an [Error] object built with
    [new Error(message)], or any other value raised by a host library or by a
    caller's function. *)
Inductive exn : Type :=
  | Error (message : string)
  | HostError (detail : string).

Inductive outcome (A : Type) : Type :=
  | Return (a : A)
  | Throw (e : exn).
Arguments Return {A} a.
Arguments Throw {A} e.

(** Calls that reach outside the process or build credentials, in program
    order. *)
Definition Buffer : Type := list Byte.byte.

Inductive event : Type :=
  | LoadSync (path : string)
  | ReadFileSync (path : string)
  | CreateSsl (root key chain : option Buffer)
  | CreateInsecure.

Definition is_file_io (ev : event) : bool :=
  match ev with
  | LoadSync _ | ReadFileSync _ => true
  | CreateSsl _ _ _ | CreateInsecure => false
  end.

(** The constructor as a computation: the calls it made, and how it ended. *)
Definition M (A : Type) : Type := (list event * outcome A)%type.

Definition ret {A : Type} (a : A) : M A := ([], Return a).

Definition throw {A : Type} (e : exn) : M A := ([], Throw e).

Definition bind {A B : Type} (m : M A) (k : A -> M B) : M B :=
  match m with
  | (t, Return a) => let '(t', r) := k a in ((t ++ t')%list, r)
  | (t, Throw e) => (t, Throw e)
  end.

Definition call {A : Type} (ev : event) (r : outcome A) : M A := ([ev], r).

Definition lift {A : Type} (r : outcome A) : M A := ([], r).

Declare Scope js_scope.
Delimit Scope js_scope with js.
Notation "'let*' x ':=' c1 'in' c2" := (bind c1 (fun x => c2))
  (at level 10, x pattern, c1 at level 100, c2 at level 200) : js_scope.

(** ** Enumerations *)

Inductive TLS_MODE : Type :=
  | DISABLED
  | ONE_WAY
  | TWO_WAY.

(** Modelled from the spec: the declaration of [CONNECT_STATUS] is imported
    from the package index and is not part of the sources at hand; the
    specification lists the connection statuses NotConnected, Connecting,
    Connected, Unimplemented and Failed. *)
Inductive CONNECT_STATUS : Type :=
  | NOT_CONNECTED
  | CONNECTING
  | CONNECTED
  | UNIMPLEMENTED
  | FAILED.

Definition CONNECT_STATUS_eqb (a b : CONNECT_STATUS) : bool :=
  match a, b with
  | NOT_CONNECTED, NOT_CONNECTED
  | CONNECTING, CONNECTING
  | CONNECTED, CONNECTED
  | UNIMPLEMENTED, UNIMPLEMENTED
  | FAILED, FAILED => true
  | _, _ => false
  end.

(** A promise as seen by [await]: how it settles, if it ever does. *)
Inductive promise : Type :=
  | Fulfilled
  | Rejected (reason : exn)
  | Pending.

(** Completion of an [async] function. *)
Inductive completion (A : Type) : Type :=
  | Resolves (a : A)
  | Rejects (e : exn)
  | Suspended.
Arguments Resolves {A} a.
Arguments Rejects {A} e.
Arguments Suspended {A}.

(** ** Channel options *)

(** A gRPC channel option value. *)
Inductive optval : Type :=
  | OptNum (z : Z)
  | OptStr (s : string).

(** The object literal of built-in options of the constructor. *)
Definition defaultChannelOptions : gmap string optval :=
  <["grpc.max_receive_message_length" := OptNum (-1)]>
  (<["grpc.max_send_message_length" := OptNum (-1)]>
  (<["grpc.keepalive_time_ms" := OptNum (10 * 1000)]>
  (<["grpc.keepalive_timeout_ms" := OptNum (5 * 1000)]>
  (<["grpc.keepalive_permit_without_calls" := OptNum 1]>
  (<["grpc.enable_retries" := OptNum 1]> ∅))))).

(** [{ ...defaults, ...user }]: spreading [undefined] adds nothing, later
    properties win. *)
Definition spread_over (user : option (gmap string optval))
    (defaults : gmap string optval) : gmap string optval :=
  match user with
  | Some u => u ∪ defaults
  | None => defaults
  end.

(** ** The host interface

    What the class takes from Node, protobufjs, grpc-js and from the package
    index ([ERROR_REASONS], [DEFAULT_CONNECT_TIMEOUT], [parseTimeToken]); none
    of it is defined in the two files.  File reads are functions of the path:
    the file system is a snapshot. *)
Class Host : Type := {
  VerifyOptions : Type;
  Root : Type;
  ProtoType : Type;
  ChannelCredentials : Type;
  Value : Type;
  undefined : Value;
  readFileSync : string -> outcome Buffer;
  loadSync : string -> outcome Root;
  lookupType : Root -> string -> outcome ProtoType;
  createSsl : option Buffer -> option Buffer -> option Buffer ->
              option VerifyOptions -> outcome ChannelCredentials;
  createInsecure : outcome ChannelCredentials;
  randomUUID : string;
  milvusProtoPath : string;
  schemaProtoPath : string;
  MILVUS_ADDRESS_IS_REQUIRED : string;
  DEFAULT_CONNECT_TIMEOUT : number;
  parseTimeToken : string -> outcome number
}.

(** ** [ClientConfig] *)

Module ClientConfig.
Section WithHost.
Context `{Host}.

Record TlsConfig : Type := {
  rootCertPath : option string;
  privateKeyPath : option string;
  certChainPath : option string;
  verifyOptions : option VerifyOptions;
  serverName : option string
}.

Record ProtoFilePath : Type := {
  milvus : option string;
  schema : option string
}.

(** [timeout?: number | string]. *)
Inductive Timeout : Type :=
  | Millis (n : number)
  | Token (s : string).

(** The properties of the configuration object that the constructor reads. *)
Record t : Type := {
  address : option string;
  ssl : option bool;
  username : option string;
  password : option string;
  channelOptions : option (gmap string optval);
  id : option string;
  tls : option TlsConfig;
  protoFilePath : option ProtoFilePath;
  timeout : option Timeout
}.

Definition with_credentials (c : t) (u p : string) : t :=
  {| address := address c; ssl := ssl c;
     username := Some u; password := Some p;
     channelOptions := channelOptions c; id := id c; tls := tls c;
     protoFilePath := protoFilePath c; timeout := timeout c |}.

End WithHost.
End ClientConfig.

(** ** [BaseClient] *)

Module BaseClient.
Section WithHost.
Context `{Host}.

Local Open Scope js_scope.

(** [this.protoFilePath], both paths always set. *)
Record Paths : Type := {
  milvus : string;
  schema : string
}.

(** The fields of the class.  [channelPool] is declared but never assigned in
    this class; [protoInternalPath] is the constant record below. *)
Record t : Type := {
  clientId : string;
  connectStatus : CONNECT_STATUS;
  connectPromise : promise;
  tlsMode : TLS_MODE;
  config : ClientConfig.t;
  channelOptions : gmap string optval;
  serverInfo : gmap string string;
  timeout : number;
  protoFilePath : Paths;
  creds : ChannelCredentials;
  metadata : gmap string string;
  schemaProto : Root;
  milvusProto : Root;
  collectionSchemaType : ProtoType;
  fieldSchemaType : ProtoType
}.

Definition protoInternalPath_collectionSchema : string :=
  "milvus.proto.schema.CollectionSchema".
Definition protoInternalPath_fieldSchema : string :=
  "milvus.proto.schema.FieldSchema".

(** First argument of the constructor: [ClientConfig | string]. *)
Inductive ConfigOrAddress : Type :=
  | ConfigObject (c : ClientConfig.t)
  | AddressString (a : string).

Record Args : Type := {
  configOrAddress : ConfigOrAddress;
  ssl : option bool;
  username : option string;
  password : option string;
  channelOptions_arg : option (gmap string optval)
}.

(** Lines 96-109: the configuration object the constructor works on. *)
Definition initial_config (a : Args) : ClientConfig.t :=
  match configOrAddress a with
  | ConfigObject c => c
  | AddressString s =>
      {| ClientConfig.address := Some s;
         ClientConfig.ssl := ssl a;
         ClientConfig.username := username a;
         ClientConfig.password := password a;
         ClientConfig.channelOptions := channelOptions_arg a;
         ClientConfig.id := None;
         ClientConfig.tls := None;
         ClientConfig.protoFilePath := None;
         ClientConfig.timeout := None |}
  end.

(** Lines 116-118: [config.username = config.username || ''], same for the
    password. *)
Definition normalize_credentials (c : ClientConfig.t) : ClientConfig.t :=
  ClientConfig.with_credentials c
    (or_str (ClientConfig.username c) "")
    (or_str (ClientConfig.password c) "").

(** Lines 129-132: the first assignment of [this.tlsMode]. *)
Definition tlsMode_by_scheme (c : ClientConfig.t) : TLS_MODE :=
  if String.prefix "https://" (nullish (ClientConfig.address c) "")
     || truthy_bool (ClientConfig.ssl c)
  then ONE_WAY
  else DISABLED.

(** [this.config.tls && this.config.tls.rootCertPath] as a condition. *)
Definition has_rootCertPath (c : ClientConfig.t) : bool :=
  match ClientConfig.tls c with
  | Some tls => truthy_str (ClientConfig.rootCertPath tls)
  | None => false
  end.

(** Lines 134-137: the second assignment. *)
Definition resolve_tlsMode (c : ClientConfig.t) : TLS_MODE :=
  if has_rootCertPath c then TWO_WAY else tlsMode_by_scheme c.

(** Lines 140-144. *)
Definition resolve_protoFilePath (c : ClientConfig.t) : Paths :=
  match ClientConfig.protoFilePath c with
  | Some p =>
      {| milvus := nullish (ClientConfig.milvus p) milvusProtoPath;
         schema := nullish (ClientConfig.schema p) schemaProtoPath |}
  | None => {| milvus := milvusProtoPath; schema := schemaProtoPath |}
  end.

(** [this.config.tls?.serverName], as a condition and as a value. *)
Definition tls_serverName (c : ClientConfig.t) : option string :=
  match ClientConfig.tls c with
  | Some tls =>
      if truthy_str (ClientConfig.serverName tls)
      then ClientConfig.serverName tls
      else None
  | None => None
  end.

(** Lines 159-175. *)
Definition resolve_channelOptions (c : ClientConfig.t) : gmap string optval :=
  let merged := spread_over (ClientConfig.channelOptions c) defaultChannelOptions in
  match tls_serverName c with
  | Some name => <["grpc.ssl_target_name_override" := OptStr name]> merged
  | None => merged
  end.

(** [if (path) { buff = readFileSync(path) }] with [buff] initially [null]. *)
Definition read_if_provided (path : option string) : M (option Buffer) :=
  match path with
  | Some p =>
      if is_empty p then ret None
      else let* b := call (ReadFileSync p) (readFileSync p) in ret (Some b)
  | None => ret None
  end.

(** Lines 178-220: the [switch] on the TLS mode. *)
Definition resolve_creds (mode : TLS_MODE) (c : ClientConfig.t)
    : M ChannelCredentials :=
  match mode with
  | ONE_WAY =>
      call (CreateSsl None None None) (createSsl None None None None)
  | TWO_WAY =>
      match ClientConfig.tls c with
      | Some tls =>
          let* rootCertBuff := read_if_provided (ClientConfig.rootCertPath tls) in
          let* privateKeyBuff := read_if_provided (ClientConfig.privateKeyPath tls) in
          let* certChainBuff := read_if_provided (ClientConfig.certChainPath tls) in
          call (CreateSsl rootCertBuff privateKeyBuff certChainBuff)
               (createSsl rootCertBuff privateKeyBuff certChainBuff
                          (ClientConfig.verifyOptions tls))
      | None =>
          (* [this.config.tls!] on a missing block: destructuring [undefined]
             raises a TypeError *)
          throw (HostError "TypeError")
      end
  | DISABLED => call CreateInsecure createInsecure
  end.

(** Lines 223-226. *)
Definition resolve_timeout (c : ClientConfig.t) : M number :=
  match ClientConfig.timeout c with
  | Some (ClientConfig.Token s) => lift (parseTimeToken s)
  | Some (ClientConfig.Millis n) =>
      ret (if truthy_num n then n else DEFAULT_CONNECT_TIMEOUT)
  | None => ret DEFAULT_CONNECT_TIMEOUT
  end.

(** The constructor, statement by statement. *)
Definition construct (a : Args) : M t :=
  let config0 := initial_config a in
  if negb (truthy_str (ClientConfig.address config0))
  then throw (Error MILVUS_ADDRESS_IS_REQUIRED)
  else
    let config := normalize_credentials config0 in
    let clientId :=
      if truthy_str (ClientConfig.id config)
      then nullish (ClientConfig.id config) randomUUID
      else randomUUID in
    let tlsMode := resolve_tlsMode config in
    let protoFilePath := resolve_protoFilePath config in
    let* schemaProto := call (LoadSync (schema protoFilePath))
                             (loadSync (schema protoFilePath)) in
    let* milvusProto := call (LoadSync (milvus protoFilePath))
                             (loadSync (milvus protoFilePath)) in
    let* collectionSchemaType :=
      lift (lookupType schemaProto protoInternalPath_collectionSchema) in
    let* fieldSchemaType :=
      lift (lookupType schemaProto protoInternalPath_fieldSchema) in
    let channelOptions := resolve_channelOptions config in
    let* creds := resolve_creds tlsMode config in
    let* timeout := resolve_timeout config in
    ret {| clientId := clientId;
           connectStatus := NOT_CONNECTED;
           connectPromise := Fulfilled;
           tlsMode := tlsMode;
           config := config;
           channelOptions := channelOptions;
           serverInfo := ∅;
           timeout := timeout;
           protoFilePath := protoFilePath;
           creds := creds;
           metadata := ∅;
           schemaProto := schemaProto;
           milvusProto := milvusProto;
           collectionSchemaType := collectionSchemaType;
           fieldSchemaType := fieldSchemaType |}.

(** *** [checkCompatibility] *)

(** The optional argument [{ message?, checker? }].  A [checker] is any
    function; calling it completes the way the function does. *)
Record CheckData : Type := {
  message : option string;
  checker : option (unit -> completion Value)
}.

Definition no_data : CheckData := {| message := None; checker := None |}.

Definition incompatible_message : string :=
  "This version of sdk is incompatible with the server, please downgrade your sdk or upgrade your server.".

(** Lines 237-256.  [data] defaults to [{}]; [await this.connectPromise]
    resumes when the promise fulfils and throws its reason when it rejects. *)
Definition checkCompatibility (this : t) (data : option CheckData)
    : completion Value :=
  let data := nullish data no_data in
  match connectPromise this with
  | Pending => Suspended
  | Rejected reason => Rejects reason
  | Fulfilled =>
      if CONNECT_STATUS_eqb (connectStatus this) UNIMPLEMENTED
      then
        match checker data with
        | Some f => f tt
        | None => Rejects (Error (or_str (message data) incompatible_message))
        end
      else Resolves undefined
  end.

End WithHost.
End BaseClient.

(** ** The client as an object

    A second embedding of the class, at the level of its statements: the
    client is a JavaScript object, a finite map from property names to
    values, and code runs against it by reading and assigning properties.
    Every assignment to a property of [this] in the source is an [assign]
    here, with its line; the host calls are those of [BaseClient].  The
    assignments of lines 117-118 are to the configuration object, before it
    becomes [this.config], and are part of [normalize_credentials]. *)

Module ClientObject.
Section WithHost.
Context `{Host}.

(** What a property of the client may hold. *)
Inductive val : Type :=
  | VUndefined
  | VString (s : string)
  | VStatus (s : CONNECT_STATUS)
  | VPromise (p : promise)
  | VMode (m : TLS_MODE)
  | VConfig (c : ClientConfig.t)
  | VOptions (o : gmap string optval)
  | VServerInfo (i : gmap string string)
  | VNumber (n : number)
  | VPaths (p : BaseClient.Paths)
  | VCreds (c : ChannelCredentials)
  | VMetadata (m : gmap string string)
  | VRoot (r : Root)
  | VType (t : ProtoType)
  | VNames (serviceName collectionSchema fieldSchema : string).

(** An assignment [this.property = value] (or to a property of the object
    that [this.property] holds), with the line where the statement starts. *)
Record write : Type := Write {
  write_line : nat;
  write_property : string;
  write_value : val
}.

(** What running a piece of code against [this] gives: the host calls and
    the assignments it made, in order, the object afterwards, and how it
    ended. *)
Record run (A : Type) : Type := Run {
  run_calls : list event;
  run_writes : list write;
  run_this : gmap string val;
  run_result : outcome A
}.
Arguments Run {A} _ _ _ _.
Arguments run_calls {A} _.
Arguments run_writes {A} _.
Arguments run_this {A} _.
Arguments run_result {A} _.

Definition P (A : Type) : Type := gmap string val -> run A.

Definition pure {A : Type} (a : A) : P A :=
  fun this => Run [] [] this (Return a).


(** A run that comes after some calls and assignments. *)
Definition after {A : Type} (calls : list event) (writes : list write)
    (r : run A) : run A :=
  Run (calls ++ run_calls r) (writes ++ run_writes r) (run_this r) (run_result r).

Definition seq {A B : Type} (m : P A) (k : A -> P B) : P B :=
  fun this =>
    let r := m this in
    match run_result r with
    | Return a => after (run_calls r) (run_writes r) (k a (run_this r))
    | Throw e => Run (run_calls r) (run_writes r) (run_this r) (Throw e)
    end.


(** [this.property] *)
Definition read (property : string) : P val :=
  fun this =>
    Run [] []
        this
        (Return match this !! property with Some v => v | None => VUndefined end).

(** A computation that only calls the host. *)
Definition host {A : Type} (m : M A) : P A :=
  fun this => Run (fst m) [] this (snd m).

Local Notation "'let!' x ':=' c1 'in' c2" := (seq c1 (fun x => c2))
  (at level 10, x pattern, c1 at level 100, c2 at level 200).













(** Lines 237-256.  [await] resumes at once on anything that is not a
    promise. *)
Definition checkCompatibility (data : option BaseClient.CheckData)
    : P (completion Value) :=
  let data := nullish data BaseClient.no_data in
  let! connectPromise := read "connectPromise" in
  match connectPromise with
  | VPromise Pending => pure Suspended
  | VPromise (Rejected reason) => pure (Rejects reason)
  | _ =>
      let! connectStatus := read "connectStatus" in
      match connectStatus with
      | VStatus UNIMPLEMENTED =>
          match BaseClient.checker data with
          | Some f => pure (f tt)
          | None =>
              pure (Rejects (Error (or_str (BaseClient.message data)
                                           BaseClient.incompatible_message)))
          end
      | _ => pure (Resolves undefined)
      end
  end.




(** The object holds what the record of the client holds. *)
Definition holds (this : gmap string val) (c : BaseClient.t) : Prop :=
  this !! "clientId" = Some (VString (BaseClient.clientId c))
  /\ this !! "connectStatus" = Some (VStatus (BaseClient.connectStatus c))
  /\ this !! "connectPromise" = Some (VPromise (BaseClient.connectPromise c))
  /\ this !! "tlsMode" = Some (VMode (BaseClient.tlsMode c))
  /\ this !! "config" = Some (VConfig (BaseClient.config c))
  /\ this !! "channelOptions" = Some (VOptions (BaseClient.channelOptions c))
  /\ this !! "timeout" = Some (VNumber (BaseClient.timeout c))
  /\ this !! "protoFilePath" = Some (VPaths (BaseClient.protoFilePath c))
  /\ this !! "creds" = Some (VCreds (BaseClient.creds c))
  /\ this !! "schemaProto" = Some (VRoot (BaseClient.schemaProto c))
  /\ this !! "milvusProto" = Some (VRoot (BaseClient.milvusProto c))
  /\ this !! "collectionSchemaType"
     = Some (VType (BaseClient.collectionSchemaType c))
  /\ this !! "fieldSchemaType" = Some (VType (BaseClient.fieldSchemaType c)).

End WithHost.

Arguments Run {H A} _ _ _ _.
Arguments run_calls {H A} _.
Arguments run_writes {H A} _.
Arguments run_this {H A} _.
Arguments run_result {H A} _.
Arguments after {H A} _ _ _.

End ClientObject.

Declare Scope obj_scope.
Delimit Scope obj_scope with obj.
Notation "'let!' x ':=' c1 'in' c2" := (ClientObject.seq c1 (fun x => c2))
  (at level 10, x pattern, c1 at level 100, c2 at level 200) : obj_scope.

(** ** [MilvusNode.createCollection] *)

(** [x || d] on booleans. *)
Definition or_bool (x : option bool) (d : bool) : bool :=
  if truthy_bool x then true else d.

(** What [createCollection] takes from protobufjs and from the gRPC stub, and
    the element type of [data.fields], declared in a file that is not part of
    the sources at hand. *)
Class NodeHost : Type := {
  FieldType : Type;
  TypeParams : Type;
  DataType : Type;
  type_params : FieldType -> option TypeParams;
  data_type : FieldType -> option DataType;
  SchemaRoot : Type;
  MessageType : Type;
  Message : Type;
  Bytes : Type;
  Response : Type;
  schemaPath : string;
  load : string -> completion (option SchemaRoot);
  root_lookupType : SchemaRoot -> string -> outcome MessageType
}.

Module MilvusNode.
Section WithHost.
Context `{NodeHost}.

Record CreateCollectionReq : Type := {
  collection_name : option string;
  description : option string;
  autoID : option bool;
  fields : option (list FieldType)
}.

(** [{ ...field, typeParams: field.type_params, dataType: field.data_type }] *)
Record FieldValue : Type := {
  field : FieldType;
  typeParams : option TypeParams;
  dataType : option DataType
}.

(** The object handed to [CollectionSchema.create]. *)
Record Payload : Type := {
  payload_name : string;
  payload_description : string;
  payload_autoID : bool;
  payload_fields : list Message
}.

(** The request object of the RPC: [{ ...data, schema }]. *)
Record Request : Type := {
  data : CreateCollectionReq;
  request_schema : Bytes
}.

(** The methods of the two looked-up types and the promisified stub. *)
Record Stub : Type := {
  create_field : MessageType -> FieldValue -> Message;
  create_collection : MessageType -> Payload -> Message;
  encode_finish : MessageType -> Message -> outcome Bytes;
  promisify : string -> Request -> completion Response
}.

Inductive rpc : Type :=
  | Rpc (method : string) (request : Request).

(** Line 93: the guard. *)
Definition accepted (d : CreateCollectionReq) : bool :=
  match fields d with
  | Some (_ :: _) => truthy_str (collection_name d)
  | _ => false
  end.

Definition field_value (f : FieldType) : FieldValue :=
  {| field := f; typeParams := type_params f; dataType := data_type f |}.

(** Lines 105-121: the payload with the fields pushed in order. *)
Definition make_payload (s : Stub) (FieldSchema : MessageType)
    (d : CreateCollectionReq) : Payload :=
  {| payload_name := nullish (collection_name d) "";
     payload_description := or_str (description d) "";
     payload_autoID := or_bool (autoID d) true;
     payload_fields :=
       map (fun f => create_field s FieldSchema (field_value f))
           (nullish (fields d) []) |}.

(** Lines 92-131: the calls sent to the server, and the completion. *)
Definition createCollection (s : Stub) (d : CreateCollectionReq)
    : list rpc * completion Response :=
  if negb (accepted d)
  then ([], Rejects (Error "fields and collection_name is needed"))
  else
    match load schemaPath with
    | Suspended => ([], Suspended)
    | Rejects e => ([], Rejects e)
    | Resolves None => ([], Rejects (Error "Missing proto file"))
    | Resolves (Some root) =>
        match root_lookupType root "milvus.proto.schema.CollectionSchema" with
        | Throw e => ([], Rejects e)
        | Return CollectionSchema =>
            match root_lookupType root "milvus.proto.schema.FieldSchema" with
            | Throw e => ([], Rejects e)
            | Return FieldSchema =>
                let payload := make_payload s FieldSchema d in
                let collectionParams :=
                  create_collection s CollectionSchema payload in
                match encode_finish s CollectionSchema collectionParams with
                | Throw e => ([], Rejects e)
                | Return schemaBtyes =>
                    let request :=
                      {| data := d; request_schema := schemaBtyes |} in
                    ([Rpc "CreateCollection" request],
                     promisify s "CreateCollection" request)
                end
            end
        end
    end.

End WithHost.
End MilvusNode.

(** ** A concrete host and concrete inputs

    One possible environment, used to run the definitions: two PEM files
    exist, every schema file loads, one duration token is understood. *)

Module Sample.

Definition pem_ca : Buffer := [Byte.x43; Byte.x41].
Definition pem_key : Buffer := [Byte.x4b].

Definition host : Host :=
  {| VerifyOptions := unit;
     Root := string;
     ProtoType := string;
     ChannelCredentials := list (option Buffer);
     Value := option string;
     undefined := None;
     readFileSync := fun p =>
       if String.eqb p "ca.pem" then Return pem_ca
       else if String.eqb p "client.key" then Return pem_key
       else Throw (HostError "ENOENT");
     loadSync := fun p => Return p;
     lookupType := fun _ name => Return name;
     createSsl := fun r k c _ => Return [r; k; c];
     createInsecure := Return [];
     randomUUID := "00000000-0000-4000-8000-000000000000";
     milvusProtoPath := "proto/proto/milvus.proto";
     schemaProtoPath := "proto/proto/schema.proto";
     MILVUS_ADDRESS_IS_REQUIRED := "The `address` property is missing.";
     DEFAULT_CONNECT_TIMEOUT := Num 15000;
     parseTimeToken := fun s =>
       if String.eqb s "5s" then Return (Num 5000)
       else Throw (Error "Invalid time token") |}.

Definition empty_config : @ClientConfig.t host :=
  {| ClientConfig.address := None;
     ClientConfig.ssl := None;
     ClientConfig.username := None;
     ClientConfig.password := None;
     ClientConfig.channelOptions := None;
     ClientConfig.id := None;
     ClientConfig.tls := None;
     ClientConfig.protoFilePath := None;
     ClientConfig.timeout := None |}.

Definition with_config (c : @ClientConfig.t host) : @BaseClient.Args host :=
  {| BaseClient.configOrAddress := BaseClient.ConfigObject c;
     BaseClient.ssl := None;
     BaseClient.username := None;
     BaseClient.password := None;
     BaseClient.channelOptions_arg := None |}.

(** [new BaseClient("localhost:19530")] *)
Definition plain_args : @BaseClient.Args host :=
  {| BaseClient.configOrAddress := BaseClient.AddressString "localhost:19530";
     BaseClient.ssl := None;
     BaseClient.username := None;
     BaseClient.password := None;
     BaseClient.channelOptions_arg := None |}.

(** [new BaseClient({ address: "http://host:1", ssl: false, username: "root",
    tls: { rootCertPath: "ca.pem", privateKeyPath: "client.key" },
    timeout: 0 })] *)
Definition mutual_tls_config : @ClientConfig.t host :=
  {| ClientConfig.address := Some "http://host:1";
     ClientConfig.ssl := Some false;
     ClientConfig.username := Some "root";
     ClientConfig.password := None;
     ClientConfig.channelOptions := None;
     ClientConfig.id := None;
     ClientConfig.tls :=
       Some {| ClientConfig.rootCertPath := Some "ca.pem";
               ClientConfig.privateKeyPath := Some "client.key";
               ClientConfig.certChainPath := None;
               ClientConfig.verifyOptions := None;
               ClientConfig.serverName := None |};
     ClientConfig.protoFilePath := None;
     ClientConfig.timeout := Some (ClientConfig.Millis (Num 0)) |}.

(** As above, with a certificate chain that does not exist on disk. *)
Definition broken_tls_config : @ClientConfig.t host :=
  {| ClientConfig.address := Some "http://host:1";
     ClientConfig.ssl := Some false;
     ClientConfig.username := None;
     ClientConfig.password := None;
     ClientConfig.channelOptions := None;
     ClientConfig.id := None;
     ClientConfig.tls :=
       Some {| ClientConfig.rootCertPath := Some "ca.pem";
               ClientConfig.privateKeyPath := None;
               ClientConfig.certChainPath := Some "missing.pem";
               ClientConfig.verifyOptions := None;
               ClientConfig.serverName := None |};
     ClientConfig.protoFilePath := None;
     ClientConfig.timeout := None |}.

(** [new BaseClient({ address: "localhost:19530",
    channelOptions: { "grpc.ssl_target_name_override": "a.example",
                      "grpc.enable_retries": 0 },
    tls: { serverName: "b.example" } })] *)
Definition override_config : @ClientConfig.t host :=
  {| ClientConfig.address := Some "localhost:19530";
     ClientConfig.ssl := None;
     ClientConfig.username := None;
     ClientConfig.password := None;
     ClientConfig.channelOptions :=
       Some (<["grpc.ssl_target_name_override" := OptStr "a.example"]>
             (<["grpc.enable_retries" := OptNum 0]> ∅));
     ClientConfig.id := None;
     ClientConfig.tls :=
       Some {| ClientConfig.rootCertPath := None;
               ClientConfig.privateKeyPath := None;
               ClientConfig.certChainPath := None;
               ClientConfig.verifyOptions := None;
               ClientConfig.serverName := Some "b.example" |};
     ClientConfig.protoFilePath := None;
     ClientConfig.timeout := Some (ClientConfig.Token "5s") |}.

(** The configuration as stored: both credentials are strings. *)
Definition normalized (c : @ClientConfig.t host) : @ClientConfig.t host :=
  {| ClientConfig.address := ClientConfig.address c;
     ClientConfig.ssl := ClientConfig.ssl c;
     ClientConfig.username := Some (nullish (ClientConfig.username c) "");
     ClientConfig.password := Some (nullish (ClientConfig.password c) "");
     ClientConfig.channelOptions := ClientConfig.channelOptions c;
     ClientConfig.id := ClientConfig.id c;
     ClientConfig.tls := ClientConfig.tls c;
     ClientConfig.protoFilePath := ClientConfig.protoFilePath c;
     ClientConfig.timeout := ClientConfig.timeout c |}.

(** The fields every sample client shares, around those that differ. *)
Definition client (mode : TLS_MODE) (c : @ClientConfig.t host)
    (options : gmap string optval) (timeout : number)
    (creds : list (option Buffer)) : @BaseClient.t host :=
  {| BaseClient.clientId := "00000000-0000-4000-8000-000000000000";
     BaseClient.connectStatus := NOT_CONNECTED;
     BaseClient.connectPromise := Fulfilled;
     BaseClient.tlsMode := mode;
     BaseClient.config := normalized c;
     BaseClient.channelOptions := options;
     BaseClient.serverInfo := ∅;
     BaseClient.timeout := timeout;
     BaseClient.protoFilePath :=
       {| BaseClient.milvus := "proto/proto/milvus.proto";
          BaseClient.schema := "proto/proto/schema.proto" |};
     BaseClient.creds := creds;
     BaseClient.metadata := ∅;
     BaseClient.schemaProto := "proto/proto/schema.proto";
     BaseClient.milvusProto := "proto/proto/milvus.proto";
     BaseClient.collectionSchemaType := "milvus.proto.schema.CollectionSchema";
     BaseClient.fieldSchemaType := "milvus.proto.schema.FieldSchema" |}.

Definition loads : list event :=
  [LoadSync "proto/proto/schema.proto"; LoadSync "proto/proto/milvus.proto"].

(** What the constructor returns on [mutual_tls_config]. *)
Definition mutual_tls_client : @BaseClient.t host :=
  client TWO_WAY mutual_tls_config defaultChannelOptions (Num 15000)
         [Some pem_ca; Some pem_key; None].

Definition mutual_tls_trace : list event :=
  (loads ++ [ReadFileSync "ca.pem"; ReadFileSync "client.key";
             CreateSsl (Some pem_ca) (Some pem_key) None])%list.

(** What the constructor returns on [override_config]. *)
Definition override_client : @BaseClient.t host :=
  client DISABLED override_config
         (<["grpc.ssl_target_name_override" := OptStr "b.example"]>
          (<["grpc.enable_retries" := OptNum 0]> defaultChannelOptions))
         (Num 5000) [].

Definition override_trace : list event := (loads ++ [CreateInsecure])%list.

(** A client whose handshake has ended, in the state given. *)
Definition after_handshake (status : CONNECT_STATUS) (p : promise)
    : @BaseClient.t host :=
  {| BaseClient.clientId := BaseClient.clientId mutual_tls_client;
     BaseClient.connectStatus := status;
     BaseClient.connectPromise := p;
     BaseClient.tlsMode := BaseClient.tlsMode mutual_tls_client;
     BaseClient.config := BaseClient.config mutual_tls_client;
     BaseClient.channelOptions := BaseClient.channelOptions mutual_tls_client;
     BaseClient.serverInfo := BaseClient.serverInfo mutual_tls_client;
     BaseClient.timeout := BaseClient.timeout mutual_tls_client;
     BaseClient.protoFilePath := BaseClient.protoFilePath mutual_tls_client;
     BaseClient.creds := BaseClient.creds mutual_tls_client;
     BaseClient.metadata := BaseClient.metadata mutual_tls_client;
     BaseClient.schemaProto := BaseClient.schemaProto mutual_tls_client;
     BaseClient.milvusProto := BaseClient.milvusProto mutual_tls_client;
     BaseClient.collectionSchemaType :=
       BaseClient.collectionSchemaType mutual_tls_client;
     BaseClient.fieldSchemaType := BaseClient.fieldSchemaType mutual_tls_client |}.

(** [{ checker: () => "fallback" }] *)
Definition with_checker : @BaseClient.CheckData host :=
  @BaseClient.Build_CheckData host
    None (Some (fun _ => Resolves (Some "fallback"))).

(** [{ message: "too old" }] *)
Definition with_message : @BaseClient.CheckData host :=
  @BaseClient.Build_CheckData host (Some "too old") None.

End Sample.

(** A stub that keeps, as the encoded schema, the name and the [autoID] of
    the payload it was given. *)
Module SampleNode.

Definition host : NodeHost :=
  {| FieldType := string;
     TypeParams := unit;
     DataType := unit;
     type_params := fun _ => None;
     data_type := fun _ => Some tt;
     SchemaRoot := unit;
     MessageType := string;
     Message := (string * bool)%type;
     Bytes := (string * bool)%type;
     Response := string;
     schemaPath := "grpc-proto/schema.proto";
     load := fun _ => Resolves (Some tt);
     root_lookupType := fun _ name => Return name |}.

Definition stub : @MilvusNode.Stub host :=
  @MilvusNode.Build_Stub host
    (fun _ v => (MilvusNode.field v, false))
    (fun _ p => (MilvusNode.payload_name p, MilvusNode.payload_autoID p))
    (fun _ m => Return m)
    (fun _ _ => Resolves "Success").

(** [{ collection_name: "c1", autoID: false, fields: ["id"] }] *)
Definition request : @MilvusNode.CreateCollectionReq host :=
  @MilvusNode.Build_CreateCollectionReq host
    (Some "c1") None (Some false) (Some ["id"]).

End SampleNode.

(** ** The other methods of [MilvusNode]

    Each hands a request object to the promisified stub.  The request types
    are declared in a file that is not part of the sources at hand; requests
    are taken as one type of plain objects, with the property
    [collection_name] that [hasCollection] reads and the empty object that
    [showCollections] sends. *)

Module MilvusNodeCalls.
Section WithStub.
Variables Req Resp : Type.
Variable collection_name : Req -> option string.
Variable empty_object : Req.
Variable promisify : string -> Req -> completion Resp.

(** One call of the stub: the method name and the request object. *)
Definition sent : Type := (string * Req)%type.

(** [const promise = await promisify(this.milvusClient, method, data);
     return promise;] *)
Definition forward (method : string) (data : Req)
    : list sent * completion Resp :=
  ([(method, data)], promisify method data).

(** Lines 138-144. *)
Definition hasCollection (data : Req) : list sent * completion Resp :=
  if negb (truthy_str (collection_name data))
  then ([], Rejects (Error "Collection name is empty"))
  else forward "HasCollection" data.

(** Lines 150-153. *)
Definition showCollections : list sent * completion Resp :=
  forward "ShowCollections" empty_object.

(** Lines 160-169. *)
Definition describeCollection (data : Req) : list sent * completion Resp :=
  forward "DescribeCollection" data.

(** Lines 171-180. *)
Definition getCollectionStatistics (data : Req) : list sent * completion Resp :=
  forward "GetCollectionStatistics" data.

(** Lines 182-185. *)
Definition loadCollection (data : Req) : list sent * completion Resp :=
  forward "LoadCollection" data.

(** Lines 187-194. *)
Definition releaseCollection (data : Req) : list sent * completion Resp :=
  forward "ReleaseCollection" data.

(** Lines 196-199. *)
Definition dropCollection (data : Req) : list sent * completion Resp :=
  forward "DropCollection" data.

End WithStub.
End MilvusNodeCalls.

(** ** A host on which things go wrong

    As the sample host, but the schema file [bad.proto] cannot be loaded, the
    schema file [empty.proto] loads and defines no type, and no duration
    token is understood. *)

Module Faulty.

Definition host : Host :=
  {| VerifyOptions := unit;
     Root := string;
     ProtoType := string;
     ChannelCredentials := list (option Buffer);
     Value := option string;
     undefined := None;
     readFileSync := @readFileSync Sample.host;
     loadSync := fun p =>
       if String.eqb p "bad.proto" then Throw (HostError "ENOENT")
       else Return p;
     lookupType := fun root name =>
       if String.eqb root "empty.proto" then Throw (Error "no such type")
       else Return name;
     createSsl := fun r k c _ => Return [r; k; c];
     createInsecure := Return [];
     randomUUID := "00000000-0000-4000-8000-000000000000";
     milvusProtoPath := "proto/proto/milvus.proto";
     schemaProtoPath := "proto/proto/schema.proto";
     MILVUS_ADDRESS_IS_REQUIRED := "The `address` property is missing.";
     DEFAULT_CONNECT_TIMEOUT := Num 15000;
     parseTimeToken := fun s => Throw (Error "Invalid time token") |}.

(** [{ address: "https://host:1", protoFilePath: paths, timeout: timeout }] *)
Definition config (paths : option ClientConfig.ProtoFilePath)
    (timeout : option ClientConfig.Timeout) : @ClientConfig.t host :=
  {| ClientConfig.address := Some "https://host:1";
     ClientConfig.ssl := None;
     ClientConfig.username := None;
     ClientConfig.password := None;
     ClientConfig.channelOptions := None;
     ClientConfig.id := None;
     ClientConfig.tls := None;
     ClientConfig.protoFilePath := paths;
     ClientConfig.timeout := timeout |}.

Definition args (paths : option ClientConfig.ProtoFilePath)
    (timeout : option ClientConfig.Timeout) : @BaseClient.Args host :=
  {| BaseClient.configOrAddress := BaseClient.ConfigObject (config paths timeout);
     BaseClient.ssl := None;
     BaseClient.username := None;
     BaseClient.password := None;
     BaseClient.channelOptions_arg := None |}.

Definition schema_at (p : string) : option ClientConfig.ProtoFilePath :=
  Some {| ClientConfig.milvus := None; ClientConfig.schema := Some p |}.

Definition milvus_at (p : string) : option ClientConfig.ProtoFilePath :=
  Some {| ClientConfig.milvus := Some p; ClientConfig.schema := None |}.

End Faulty.

(** More inputs for the sample host. *)
Module Sample2.

(** [{ address: "https://db.example:443", id: "worker-7",
       tls: { privateKeyPath: "client.key", certChainPath: "missing.pem" },
       protoFilePath: { schema: "" } }] *)
Definition one_way_config : @ClientConfig.t Sample.host :=
  {| ClientConfig.address := Some "https://db.example:443";
     ClientConfig.ssl := None;
     ClientConfig.username := None;
     ClientConfig.password := Some "secret";
     ClientConfig.channelOptions := None;
     ClientConfig.id := Some "worker-7";
     ClientConfig.tls :=
       Some {| ClientConfig.rootCertPath := None;
               ClientConfig.privateKeyPath := Some "client.key";
               ClientConfig.certChainPath := Some "missing.pem";
               ClientConfig.verifyOptions := None;
               ClientConfig.serverName := None |};
     ClientConfig.protoFilePath :=
       Some {| ClientConfig.milvus := None; ClientConfig.schema := Some "" |};
     ClientConfig.timeout := None |}.

Definition one_way_trace : list event :=
  [LoadSync ""; LoadSync "proto/proto/milvus.proto"; CreateSsl None None None].

(** What the constructor returns on [one_way_config]. *)
Definition one_way_client : @BaseClient.t Sample.host :=
  {| BaseClient.clientId := "worker-7";
     BaseClient.connectStatus := NOT_CONNECTED;
     BaseClient.connectPromise := Fulfilled;
     BaseClient.tlsMode := ONE_WAY;
     BaseClient.config := Sample.normalized one_way_config;
     BaseClient.channelOptions := defaultChannelOptions;
     BaseClient.serverInfo := ∅;
     BaseClient.timeout := Num 15000;
     BaseClient.protoFilePath :=
       {| BaseClient.milvus := "proto/proto/milvus.proto";
          BaseClient.schema := "" |};
     BaseClient.creds := [None; None; None];
     BaseClient.metadata := ∅;
     BaseClient.schemaProto := "";
     BaseClient.milvusProto := "proto/proto/milvus.proto";
     BaseClient.collectionSchemaType := "milvus.proto.schema.CollectionSchema";
     BaseClient.fieldSchemaType := "milvus.proto.schema.FieldSchema" |}.

(** A stub that answers every call, and a request with no name. *)
Definition answer : string -> option string -> completion string :=
  fun method _ => Resolves method.

End Sample2.

(** ** A host whose [createSsl] checks its arguments

    As the sample host, but [createSsl] refuses a private key without a
    certificate chain and a certificate chain without a private key. *)

Module GrpcLike.

Definition host : Host :=
  {| VerifyOptions := unit;
     Root := string;
     ProtoType := string;
     ChannelCredentials := list (option Buffer);
     Value := option string;
     undefined := None;
     readFileSync := @readFileSync Sample.host;
     loadSync := fun p => Return p;
     lookupType := fun _ name => Return name;
     createSsl := fun r k c _ =>
       match k, c with
       | Some _, None =>
           Throw (Error "Private key must be given with accompanying certificate chain")
       | None, Some _ =>
           Throw (Error "Certificate chain must be given with accompanying private key")
       | _, _ => Return [r; k; c]
       end;
     createInsecure := Return [];
     randomUUID := "00000000-0000-4000-8000-000000000000";
     milvusProtoPath := "proto/proto/milvus.proto";
     schemaProtoPath := "proto/proto/schema.proto";
     MILVUS_ADDRESS_IS_REQUIRED := "The `address` property is missing.";
     DEFAULT_CONNECT_TIMEOUT := Num 15000;
     parseTimeToken := @parseTimeToken Sample.host |}.

(** [tls: { rootCertPath: "ca.pem" }] *)
Definition root_only : @ClientConfig.TlsConfig host :=
  {| ClientConfig.rootCertPath := Some "ca.pem";
     ClientConfig.privateKeyPath := None;
     ClientConfig.certChainPath := None;
     ClientConfig.verifyOptions := None;
     ClientConfig.serverName := None |}.

(** [new BaseClient({ address: "localhost:19530", tls: tls })] *)
Definition args (tls : option (@ClientConfig.TlsConfig host))
    : @BaseClient.Args host :=
  {| BaseClient.configOrAddress :=
       BaseClient.ConfigObject
         {| ClientConfig.address := Some "localhost:19530";
            ClientConfig.ssl := None;
            ClientConfig.username := None;
            ClientConfig.password := None;
            ClientConfig.channelOptions := None;
            ClientConfig.id := None;
            ClientConfig.tls := tls;
            ClientConfig.protoFilePath := None;
            ClientConfig.timeout := None |};
     BaseClient.ssl := None;
     BaseClient.username := None;
     BaseClient.password := None;
     BaseClient.channelOptions_arg := None |}.

End GrpcLike.

(** ** The statements of the specification, in its own words *)

Module Spec.
Section WithHost.
Context `{Host}.

(** "The address starts with the secure scheme." *)
Definition secure_scheme (c : ClientConfig.t) : bool :=
  match ClientConfig.address c with
  | Some a => String.prefix "https://" a
  | None => false
  end.

(** "The ssl flag is set." *)
Definition ssl_flag (c : ClientConfig.t) : bool :=
  match ClientConfig.ssl c with
  | Some true => true
  | _ => false
  end.

(** A path is provided: the property is there and is not the empty string. *)
Definition provided (p : option string) : Prop :=
  exists s, p = Some s /\ s <> "".

(** "A root-certificate path is present in the TLS block." *)
Definition rootCertPath_present (c : ClientConfig.t) : Prop :=
  exists tls, ClientConfig.tls c = Some tls /\
              provided (ClientConfig.rootCertPath tls).

(** "TwoWay whenever a root-certificate path is present; otherwise OneWay
    whenever the address uses the secure scheme or the flag requests it;
    otherwise Disabled." *)
Definition SecurityMode (secure ssl root_cert : bool) : TLS_MODE :=
  if root_cert then TWO_WAY
  else if secure || ssl then ONE_WAY
  else DISABLED.

(** "User overrides layered over built-in defaults", key by key. *)
Definition layered (user : option (gmap string optval)) (k : string)
    : option optval :=
  match user with
  | Some u =>
      match u !! k with
      | Some v => Some v
      | None => defaultChannelOptions !! k
      end
  | None => defaultChannelOptions !! k
  end.

(** The channel options of every constructed client are the layered ones, at
    every key. *)
Definition channelOptions_layered_everywhere (a : BaseClient.Args) : Prop :=
  forall tr c, BaseClient.construct a = (tr, Return c) ->
  forall k, BaseClient.channelOptions c !! k
            = layered (ClientConfig.channelOptions (BaseClient.initial_config a)) k.

(** "If status is Failed, propagate the underlying connection failure": the
    call fails whenever the status is Failed. *)
Definition failed_status_rejects (this : BaseClient.t)
    (data : option BaseClient.CheckData) : Prop :=
  BaseClient.connectStatus this = FAILED ->
  exists e, BaseClient.checkCompatibility this data = Rejects e.

(** The three PEM paths of a TLS block, in the order the code looks at
    them. *)
Definition pem_paths (tls : ClientConfig.TlsConfig) : list (option string) :=
  [ClientConfig.rootCertPath tls; ClientConfig.privateKeyPath tls;
   ClientConfig.certChainPath tls].

(** [p] is one of the provided PEM paths of the block. *)
Definition configured (tls : ClientConfig.TlsConfig) (p : string) : Prop :=
  In (Some p) (pem_paths tls) /\ p <> "".

(** The material passed for a path: the content of the file when the path is
    provided, empty ([null]) when it is not. *)
Definition material_of (path : option string) (buff : option Buffer) : Prop :=
  (forall p, path = Some p -> p <> "" ->
             exists b, readFileSync p = Return b /\ buff = Some b)
  /\ (~ provided path -> buff = None).

End WithHost.
End Spec.

(** * Properties *)

(** ** The computation monad *)

Lemma bind_Return_inv {A B : Type} (m : M A) (k : A -> M B) t b :
  bind m k = (t, Return b) ->
  exists t1 a t2, m = (t1, Return a) /\ k a = (t2, Return b) /\ t = (t1 ++ t2)%list.
Proof.
  unfold bind. destruct m as [t1 [a | e]]; [| discriminate].
  destruct (k a) as [t2 r] eqn:Hk. intros Heq.
  injection Heq as Ht Hr. subst. exists t1, a, t2. auto.
Qed.

(** ** The constructor *)

Section Construction.
Context `{Host}.

(** Settling the credentials does not touch what the TLS mode reads. *)
Lemma resolve_tlsMode_normalize (c : ClientConfig.t) :
  BaseClient.resolve_tlsMode (BaseClient.normalize_credentials c)
  = BaseClient.resolve_tlsMode c.
Proof. reflexivity. Qed.

(** What a constructor that returned has stored. *)
Lemma construct_success (a : BaseClient.Args) tr c :
  BaseClient.construct a = (tr, Return c) ->
  let cfg := BaseClient.normalize_credentials (BaseClient.initial_config a) in
  truthy_str (ClientConfig.address (BaseClient.initial_config a)) = true /\
  BaseClient.config c = cfg /\
  BaseClient.tlsMode c = BaseClient.resolve_tlsMode cfg /\
  BaseClient.channelOptions c = BaseClient.resolve_channelOptions cfg /\
  (exists t, BaseClient.resolve_creds (BaseClient.resolve_tlsMode cfg) cfg
             = (t, Return (BaseClient.creds c))) /\
  (exists t, BaseClient.resolve_timeout cfg = (t, Return (BaseClient.timeout c))) /\
  BaseClient.connectStatus c = NOT_CONNECTED /\
  BaseClient.connectPromise c = Fulfilled.
Proof.
  unfold BaseClient.construct.
  destruct (truthy_str (ClientConfig.address (BaseClient.initial_config a))) eqn:Haddr;
    cbn [negb]; [| discriminate].
  intros Hc.
  apply bind_Return_inv in Hc as (t1 & sp & t1' & _ & Hc & _).
  apply bind_Return_inv in Hc as (t2 & mp & t2' & _ & Hc & _).
  apply bind_Return_inv in Hc as (t3 & cs & t3' & _ & Hc & _).
  apply bind_Return_inv in Hc as (t4 & fs & t4' & _ & Hc & _).
  apply bind_Return_inv in Hc as (t5 & cr & t5' & Hcr & Hc & _).
  apply bind_Return_inv in Hc as (t6 & tm & t6' & Htm & Hc & _).
  injection Hc as _ <-. cbn.
  repeat split; eauto.
Qed.

End Construction.

(** ** Security mode *)

Section SecurityModeProperties.
Context `{Host}.

Lemma truthy_str_provided (p : option string) :
  truthy_str p = true <-> Spec.provided p.
Proof.
  unfold Spec.provided. split.
  - destruct p as [[| ch s] |]; cbn; try discriminate. intros _. eauto.
  - intros (s & -> & Hs). destruct s; [congruence | reflexivity].
Qed.

Lemma has_rootCertPath_present (c : ClientConfig.t) :
  BaseClient.has_rootCertPath c = true <-> Spec.rootCertPath_present c.
Proof.
  unfold BaseClient.has_rootCertPath, Spec.rootCertPath_present.
  destruct (ClientConfig.tls c) as [tls |].
  - rewrite truthy_str_provided. split; [eauto |].
    intros (tls' & Heq & Hp). injection Heq as <-. exact Hp.
  - split; [discriminate |]. intros (tls' & Heq & _). discriminate.
Qed.

Lemma resolve_tlsMode_SecurityMode (c : ClientConfig.t) :
  truthy_str (ClientConfig.address c) = true ->
  BaseClient.resolve_tlsMode c
  = Spec.SecurityMode (Spec.secure_scheme c) (Spec.ssl_flag c)
                      (BaseClient.has_rootCertPath c).
Proof.
  intros Haddr.
  unfold BaseClient.resolve_tlsMode, BaseClient.tlsMode_by_scheme,
    Spec.SecurityMode, Spec.secure_scheme, Spec.ssl_flag.
  destruct (ClientConfig.address c) as [addr |]; [| discriminate].
  destruct (ClientConfig.ssl c) as [[|] |]; reflexivity.
Qed.

(** C1.  The TLS mode of a constructed client is the specification's
    function of three facts about the configuration handed in: whether the
    address starts with [https://], whether the [ssl] flag is set, and whether
    the TLS block provides a root-certificate path (a non-empty string).  It
    is [TWO_WAY] whenever the path is provided, whatever the scheme and the
    flag; otherwise [ONE_WAY] whenever the scheme is secure or the flag is
    set; otherwise [DISABLED]. *)
Theorem tlsMode_is_SecurityMode (a : BaseClient.Args) tr c :
  BaseClient.construct a = (tr, Return c) ->
  let cfg := BaseClient.initial_config a in
  BaseClient.tlsMode c
  = Spec.SecurityMode (Spec.secure_scheme cfg) (Spec.ssl_flag cfg)
                      (BaseClient.has_rootCertPath cfg)
  /\ (Spec.rootCertPath_present cfg -> BaseClient.tlsMode c = TWO_WAY)
  /\ (~ Spec.rootCertPath_present cfg ->
      Spec.secure_scheme cfg = true \/ Spec.ssl_flag cfg = true ->
      BaseClient.tlsMode c = ONE_WAY)
  /\ (~ Spec.rootCertPath_present cfg ->
      Spec.secure_scheme cfg = false -> Spec.ssl_flag cfg = false ->
      BaseClient.tlsMode c = DISABLED).
Proof.
  intros Hc cfg.
  destruct (construct_success a tr c Hc) as (Haddr & _ & Hmode & _).
  rewrite resolve_tlsMode_normalize in Hmode.
  rewrite (resolve_tlsMode_SecurityMode _ Haddr) in Hmode. fold cfg in Hmode.
  split; [exact Hmode |].
  rewrite Hmode. rewrite <- has_rootCertPath_present.
  unfold Spec.SecurityMode.
  destruct (BaseClient.has_rootCertPath cfg).
  - repeat split; [intros; exfalso; auto ..].
  - repeat split.
    + discriminate.
    + intros _ [-> | ->]; [reflexivity |].
      destruct (Spec.secure_scheme cfg); reflexivity.
    + intros _ -> ->. reflexivity.
Qed.

(** An empty string given as root-certificate path is not a provided path:
    the mode is then decided by the scheme and the flag. *)
Lemma tlsMode_empty_rootCertPath (c : ClientConfig.t) tls :
  ClientConfig.tls c = Some tls ->
  ClientConfig.rootCertPath tls = Some "" ->
  BaseClient.resolve_tlsMode c = BaseClient.tlsMode_by_scheme c.
Proof.
  intros Htls Hroot. unfold BaseClient.resolve_tlsMode, BaseClient.has_rootCertPath.
  rewrite Htls, Hroot. reflexivity.
Qed.

End SecurityModeProperties.

(** ** Address, credentials of the user, timeout *)

Section ConfigurationProperties.
Context `{Host}.

(** C4.  When the configuration has no address or an empty one, the
    constructor throws the address-is-required error, and it has made no call
    at all by then: no schema file was loaded, no file was read. *)
Theorem construct_requires_address (a : BaseClient.Args) :
  ClientConfig.address (BaseClient.initial_config a) = None \/
  ClientConfig.address (BaseClient.initial_config a) = Some "" ->
  BaseClient.construct a = ([], Throw (Error MILVUS_ADDRESS_IS_REQUIRED))
  /\ filter is_file_io (fst (BaseClient.construct a)) = [].
Proof.
  intros Haddr.
  assert (Hthrow : BaseClient.construct a
                   = ([], Throw (Error MILVUS_ADDRESS_IS_REQUIRED))).
  { unfold BaseClient.construct. destruct Haddr as [-> | ->]; reflexivity. }
  rewrite Hthrow. split; reflexivity.
Qed.

(** C8.  In the configuration stored by a constructed client, [username] and
    [password] are strings: the empty string when the property was absent,
    the given string otherwise. *)
Theorem credentials_are_strings (a : BaseClient.Args) tr c :
  BaseClient.construct a = (tr, Return c) ->
  let given := BaseClient.initial_config a in
  let stored := BaseClient.config c in
  (exists u p, ClientConfig.username stored = Some u /\
               ClientConfig.password stored = Some p)
  /\ (ClientConfig.username given = None -> ClientConfig.username stored = Some "")
  /\ (ClientConfig.password given = None -> ClientConfig.password stored = Some "")
  /\ (forall u, ClientConfig.username given = Some u ->
                ClientConfig.username stored = Some u)
  /\ (forall p, ClientConfig.password given = Some p ->
                ClientConfig.password stored = Some p).
Proof.
  intros Hc given stored.
  destruct (construct_success a tr c Hc) as (_ & Hcfg & _).
  subst stored. rewrite Hcfg. cbn. fold given.
  split; [eauto |].
  split; [intros ->; reflexivity |].
  split; [intros ->; reflexivity |].
  split; intros s ->; destruct s; reflexivity.
Qed.

(** C10.  The timeout of a constructed client: a string is handed to the
    duration-token parser and its result is taken; a number is taken as
    given unless it is falsy (zero or NaN); zero, NaN and a missing
    timeout give the default connect timeout. *)
Theorem timeout_resolution (a : BaseClient.Args) tr c :
  BaseClient.construct a = (tr, Return c) ->
  match ClientConfig.timeout (BaseClient.initial_config a) with
  | Some (ClientConfig.Token s) =>
      parseTimeToken s = Return (BaseClient.timeout c)
  | Some (ClientConfig.Millis n) =>
      (n = Num 0 \/ n = NaN -> BaseClient.timeout c = DEFAULT_CONNECT_TIMEOUT)
      /\ (n <> Num 0 -> n <> NaN -> BaseClient.timeout c = n)
  | None => BaseClient.timeout c = DEFAULT_CONNECT_TIMEOUT
  end.
Proof.
  intros Hc.
  destruct (construct_success a tr c Hc) as (_ & _ & _ & _ & _ & [t Ht] & _).
  unfold BaseClient.resolve_timeout in Ht. cbn in Ht.
  destruct (ClientConfig.timeout (BaseClient.initial_config a)) as [[n | s] |].
  - injection Ht as _ <-. split.
    + intros [-> | ->]; reflexivity.
    + intros Hz Hn. destruct n as [z |]; [| congruence].
      cbn. destruct (Z.eqb_spec z 0) as [-> | _]; [congruence | reflexivity].
  - unfold lift in Ht. injection Ht as _ ->. reflexivity.
  - injection Ht as _ <-. reflexivity.
Qed.

End ConfigurationProperties.

(** ** Channel options *)

Section ChannelOptionsProperties.
Context `{Host}.

Lemma spread_over_lookup (user : option (gmap string optval)) (k : string) :
  spread_over user defaultChannelOptions !! k = Spec.layered user k.
Proof.
  unfold spread_over, Spec.layered. destruct user as [u |]; [| reflexivity].
  rewrite lookup_union. destruct (u !! k), (defaultChannelOptions !! k); reflexivity.
Qed.

Lemma tls_serverName_Some (c : ClientConfig.t) name :
  BaseClient.tls_serverName c = Some name <->
  exists tls, ClientConfig.tls c = Some tls /\
              ClientConfig.serverName tls = Some name /\ name <> "".
Proof.
  unfold BaseClient.tls_serverName. split.
  - destruct (ClientConfig.tls c) as [tls |]; [| discriminate].
    destruct (truthy_str (ClientConfig.serverName tls)) eqn:Ht; [| discriminate].
    intros Hn. exists tls. split; [reflexivity |]. split; [exact Hn |].
    rewrite Hn in Ht. destruct name; [discriminate | congruence].
  - intros (tls & -> & Hn & Hne). rewrite Hn.
    destruct name; [congruence | reflexivity].
Qed.

(** The built-in defaults, read off the object literal. *)
Lemma defaultChannelOptions_values :
  defaultChannelOptions !! "grpc.max_receive_message_length" = Some (OptNum (-1))
  /\ defaultChannelOptions !! "grpc.max_send_message_length" = Some (OptNum (-1))
  /\ defaultChannelOptions !! "grpc.keepalive_time_ms" = Some (OptNum 10000)
  /\ defaultChannelOptions !! "grpc.keepalive_timeout_ms" = Some (OptNum 5000)
  /\ defaultChannelOptions !! "grpc.keepalive_permit_without_calls" = Some (OptNum 1)
  /\ defaultChannelOptions !! "grpc.enable_retries" = Some (OptNum 1).
Proof. repeat split; vm_compute; reflexivity. Qed.

(** C6, as the code has it.  The channel options of a constructed client are
    the user's options layered over the built-in defaults at every key but
    [grpc.ssl_target_name_override]; at that key they hold the server name of
    the TLS block whenever one is provided (a non-empty string), whatever the
    user's options say, and are layered like the others when no server name
    is provided.  The defaults are: unlimited receive and send size (-1),
    keepalive every 10000 ms with a 5000 ms timeout, keepalive without calls
    permitted (1), retries enabled (1). *)
Theorem channelOptions_layered_except_serverName (a : BaseClient.Args) tr c :
  BaseClient.construct a = (tr, Return c) ->
  let cfg := BaseClient.initial_config a in
  let user := ClientConfig.channelOptions cfg in
  (forall k, k <> "grpc.ssl_target_name_override" ->
             BaseClient.channelOptions c !! k = Spec.layered user k)
  /\ (forall tls name,
        ClientConfig.tls cfg = Some tls ->
        ClientConfig.serverName tls = Some name -> name <> "" ->
        BaseClient.channelOptions c !! "grpc.ssl_target_name_override"
        = Some (OptStr name))
  /\ ((forall tls, ClientConfig.tls cfg = Some tls ->
                   ~ Spec.provided (ClientConfig.serverName tls)) ->
      forall k, BaseClient.channelOptions c !! k = Spec.layered user k)
  /\ (defaultChannelOptions !! "grpc.max_receive_message_length" = Some (OptNum (-1))
      /\ defaultChannelOptions !! "grpc.max_send_message_length" = Some (OptNum (-1))
      /\ defaultChannelOptions !! "grpc.keepalive_time_ms" = Some (OptNum 10000)
      /\ defaultChannelOptions !! "grpc.keepalive_timeout_ms" = Some (OptNum 5000)
      /\ defaultChannelOptions !! "grpc.keepalive_permit_without_calls" = Some (OptNum 1)
      /\ defaultChannelOptions !! "grpc.enable_retries" = Some (OptNum 1)).
Proof.
  intros Hc cfg user.
  destruct (construct_success a tr c Hc) as (_ & _ & _ & Hopts & _).
  rewrite Hopts. unfold BaseClient.resolve_channelOptions.
  change (ClientConfig.channelOptions
            (BaseClient.normalize_credentials (BaseClient.initial_config a)))
    with user.
  change (BaseClient.tls_serverName
            (BaseClient.normalize_credentials (BaseClient.initial_config a)))
    with (BaseClient.tls_serverName cfg).
  split; [| split; [| split]].
  - intros k Hk. destruct (BaseClient.tls_serverName cfg).
    + rewrite lookup_insert_ne by congruence. apply spread_over_lookup.
    + apply spread_over_lookup.
  - intros tls name Htls Hname Hne.
    assert (Hs : BaseClient.tls_serverName cfg = Some name).
    { apply tls_serverName_Some. eauto. }
    rewrite Hs. apply lookup_insert_eq.
  - intros Hnone k.
    destruct (BaseClient.tls_serverName cfg) as [name |] eqn:Hs.
    + apply tls_serverName_Some in Hs as (tls & Htls & Hname & Hne).
      exfalso. apply (Hnone tls Htls). exists name. auto.
    + apply spread_over_lookup.
  - exact defaultChannelOptions_values.
Qed.

End ChannelOptionsProperties.

(** ** Credentials for mutual TLS *)

Section CredentialsProperties.
Context `{Host}.

(** The three ways a PEM path is handled. *)
Lemma read_if_provided_cases (path : option string) :
  (~ Spec.provided path /\ BaseClient.read_if_provided path = ([], Return None))
  \/ (exists p, path = Some p /\ p <> "" /\
        ((exists b, readFileSync p = Return b /\
            BaseClient.read_if_provided path = ([ReadFileSync p], Return (Some b)))
         \/ (exists e, readFileSync p = Throw e /\
            BaseClient.read_if_provided path = ([ReadFileSync p], Throw e)))).
Proof.
  destruct path as [[| ch s] |].
  - left. split; [| reflexivity]. intros (s & Heq & Hs). congruence.
  - right. exists (String ch s). split; [reflexivity |]. split; [discriminate |].
    unfold BaseClient.read_if_provided. cbn [is_empty].
    destruct (readFileSync (String ch s)) as [b | e] eqn:Hr.
    + left. exists b. split; reflexivity.
    + right. exists e. split; reflexivity.
  - left. split; [| reflexivity]. intros (s & Heq & _). discriminate.
Qed.

Lemma material_of_read (p : string) (b : Buffer) :
  p <> "" -> readFileSync p = Return b -> Spec.material_of (Some p) (Some b).
Proof.
  intros Hp Hr. split.
  - intros p' Heq _. injection Heq as <-. eauto.
  - intros Hn. exfalso. apply Hn. exists p. auto.
Qed.

Lemma material_of_absent (path : option string) :
  ~ Spec.provided path -> Spec.material_of path None.
Proof.
  intros Hn. split; [| reflexivity].
  intros p -> Hp. exfalso. apply Hn. exists p. auto.
Qed.

(** In [TWO_WAY] mode the TLS block is there. *)
Lemma two_way_has_tls (c : ClientConfig.t) :
  BaseClient.resolve_tlsMode c = TWO_WAY ->
  exists tls, ClientConfig.tls c = Some tls.
Proof.
  unfold BaseClient.resolve_tlsMode, BaseClient.has_rootCertPath,
    BaseClient.tlsMode_by_scheme.
  destruct (ClientConfig.tls c) as [tls |]; [eauto |].
  destruct (_ || _); discriminate.
Qed.

(** When the switch on the TLS mode throws, so does the constructor, with the
    same value, after the two schema files were loaded. *)
Lemma construct_creds_throw (a : BaseClient.Args) sp mp cs fs tr e :
  let cfg := BaseClient.normalize_credentials (BaseClient.initial_config a) in
  let paths := BaseClient.resolve_protoFilePath cfg in
  truthy_str (ClientConfig.address (BaseClient.initial_config a)) = true ->
  loadSync (BaseClient.schema paths) = Return sp ->
  loadSync (BaseClient.milvus paths) = Return mp ->
  lookupType sp BaseClient.protoInternalPath_collectionSchema = Return cs ->
  lookupType sp BaseClient.protoInternalPath_fieldSchema = Return fs ->
  BaseClient.resolve_creds (BaseClient.resolve_tlsMode cfg) cfg = (tr, Throw e) ->
  BaseClient.construct a
  = ([LoadSync (BaseClient.schema paths); LoadSync (BaseClient.milvus paths)] ++ tr,
     Throw e)%list.
Proof.
  intros cfg paths Haddr Hsp Hmp Hcs Hfs Hcreds.
  unfold BaseClient.construct. rewrite Haddr. cbn [negb].
  fold cfg. fold paths.
  unfold call, lift. rewrite Hsp, Hmp.
  cbn [bind]. rewrite Hcs. cbn [bind]. rewrite Hfs. cbn [bind].
  rewrite Hcreds. reflexivity.
Qed.

(** Case analysis over the three paths: each is absent, read, or fails to
    be read. *)
Local Ltac split_in :=
  repeat match goal with
         | Hin : _ \/ _ |- _ => destruct Hin as [Hin | Hin]
         | Hin : False |- _ => contradiction
         end.

Local Ltac absent_path :=
  match goal with
  | Hn : ~ Spec.provided ?path, Hin : ?path = Some ?p |- _ =>
      exfalso; apply Hn; exists p; split; [exact Hin | assumption]
  end.

Local Ltac pem_reads_only_configured :=
  let p := fresh "p" in
  let Hin := fresh "Hin" in
  intros p Hin; split_in; try discriminate Hin;
  injection Hin as <-; split; auto 6.

Local Ltac unreadable_path Hall :=
  match goal with
  | Hr : readFileSync ?p = Throw _ |- _ =>
      let b := fresh "b" in
      let Hb := fresh "Hb" in
      destruct (Hall p) as [b Hb];
      [split; [auto 6 | assumption] | rewrite Hr in Hb; discriminate Hb]
  end.

Local Ltac material :=
  match goal with
  | |- Spec.material_of (Some _) (Some _) => apply material_of_read; assumption
  | |- Spec.material_of _ None => apply material_of_absent; assumption
  end.

Local Ltac pem_all_readable Hall :=
  first
    [ unreadable_path Hall
    | split;
      [ let p := fresh "p" in
        let Hin := fresh "Hin" in
        let Hne := fresh "Hne" in
        intros p [Hin Hne]; split_in; try absent_path;
        injection Hin as <-; auto 6
      | match goal with
        | |- context [createSsl ?r ?k ?c _ = _] => exists r, k, c
        end;
        repeat (split; [material |]); split; [auto 6 | reflexivity] ] ].

Local Ltac pem_read_error Hthrow :=
  first
    [ match goal with
      | Hr' : readFileSync ?p' = Throw ?e' |- context [Throw ?e' = Throw _] =>
          exists p', e';
          split; [split; [auto 6 | assumption] |];
          split; [exact Hr' |];
          split; [auto 6 |];
          split; [reflexivity |];
          split;
          [ let Hc := fresh "Hc" in
            intros ? ? ? Hc; split_in; discriminate Hc
          | apply Hthrow; reflexivity ]
      end
    | split_in; try absent_path;
      match goal with
      | Hin : Some _ = Some _, Hr : readFileSync _ = Throw _ |- _ =>
          injection Hin as <-;
          match goal with
          | Hok : readFileSync ?q = Return _ |- _ =>
              rewrite Hok in Hr; discriminate Hr
          end
      end ].

(** C7.  In [TWO_WAY] mode, the switch reads a file only for a provided path
    of the TLS block.  When every provided path can be read, each of them is
    read, and [createSsl] is called with, for each of the three, the content
    of the file if its path is provided and [null] if it is not, with no
    error on the way.  When a provided path cannot be read, the read error is
    what the switch throws, [createSsl] is not called, and the constructor
    throws that same error. *)
Theorem two_way_pem_files (a : BaseClient.Args) tls :
  let cfg := BaseClient.initial_config a in
  ClientConfig.tls cfg = Some tls ->
  BaseClient.resolve_tlsMode cfg = TWO_WAY ->
  let run := BaseClient.resolve_creds (BaseClient.resolve_tlsMode cfg) cfg in
  (forall p, In (ReadFileSync p) (fst run) -> Spec.configured tls p)
  /\ ((forall p, Spec.configured tls p -> exists b, readFileSync p = Return b) ->
      (forall p, Spec.configured tls p -> In (ReadFileSync p) (fst run))
      /\ exists root key chain,
           Spec.material_of (ClientConfig.rootCertPath tls) root
           /\ Spec.material_of (ClientConfig.privateKeyPath tls) key
           /\ Spec.material_of (ClientConfig.certChainPath tls) chain
           /\ In (CreateSsl root key chain) (fst run)
           /\ snd run = createSsl root key chain (ClientConfig.verifyOptions tls))
  /\ ((exists p e, Spec.configured tls p /\ readFileSync p = Throw e) ->
      exists p e,
        Spec.configured tls p /\ readFileSync p = Throw e
        /\ In (ReadFileSync p) (fst run)
        /\ snd run = Throw e
        /\ (forall root key chain, ~ In (CreateSsl root key chain) (fst run))
        /\ (forall sp mp cs fs,
              let paths := BaseClient.resolve_protoFilePath cfg in
              truthy_str (ClientConfig.address cfg) = true ->
              loadSync (BaseClient.schema paths) = Return sp ->
              loadSync (BaseClient.milvus paths) = Return mp ->
              lookupType sp BaseClient.protoInternalPath_collectionSchema = Return cs ->
              lookupType sp BaseClient.protoInternalPath_fieldSchema = Return fs ->
              snd (BaseClient.construct a) = Throw e)).
Proof.
  intros cfg Htls Hmode run.
  assert (Hthrow : forall e, snd run = Throw e ->
            forall sp mp cs fs,
              let paths := BaseClient.resolve_protoFilePath cfg in
              truthy_str (ClientConfig.address cfg) = true ->
              loadSync (BaseClient.schema paths) = Return sp ->
              loadSync (BaseClient.milvus paths) = Return mp ->
              lookupType sp BaseClient.protoInternalPath_collectionSchema = Return cs ->
              lookupType sp BaseClient.protoInternalPath_fieldSchema = Return fs ->
              snd (BaseClient.construct a) = Throw e).
  { intros e He sp mp cs fs paths Haddr Hsp Hmp Hcs Hfs.
    rewrite (construct_creds_throw a sp mp cs fs (fst run) e Haddr Hsp Hmp Hcs Hfs);
      [reflexivity |].
    rewrite <- He. change (run = (fst run, snd run)). apply surjective_pairing. }
  revert Hthrow. subst run. rewrite Hmode.
  unfold BaseClient.resolve_creds. rewrite Htls.
  unfold Spec.configured, Spec.pem_paths.
  destruct (read_if_provided_cases (ClientConfig.rootCertPath tls))
    as [[Hn1 E1] | (p1 & Hp1 & Hne1 & [(b1 & Hr1 & E1) | (e1 & Hr1 & E1)])];
  destruct (read_if_provided_cases (ClientConfig.privateKeyPath tls))
    as [[Hn2 E2] | (p2 & Hp2 & Hne2 & [(b2 & Hr2 & E2) | (e2 & Hr2 & E2)])];
  destruct (read_if_provided_cases (ClientConfig.certChainPath tls))
    as [[Hn3 E3] | (p3 & Hp3 & Hne3 & [(b3 & Hr3 & E3) | (e3 & Hr3 & E3)])];
  rewrite E1, ?E2, ?E3; cbn [bind call fst snd app]; intros Hthrow.
  all: cbn [In]; try rewrite Hp1 in *; try rewrite Hp2 in *; try rewrite Hp3 in *.
  all: (split; [pem_reads_only_configured | split]).
  all: try (intros Hall; pem_all_readable Hall).
  all: intros (p & e & [Hin Hne] & Hr); pem_read_error Hthrow.
Qed.

End CredentialsProperties.

(** ** The compatibility gate *)

Section GateProperties.
Context `{Host}.

(** C2.  Once the connect promise has fulfilled with the status
    [UNIMPLEMENTED]: without a checker the call rejects with an [Error] whose
    message is the caller's message when one is given (a non-empty string)
    and the default incompatibility message otherwise; with a checker the
    call completes exactly as the checker does, so it resolves to the
    checker's result whenever the checker returns one. *)
Theorem unimplemented_gate (this : BaseClient.t)
    (data : option BaseClient.CheckData) :
  BaseClient.connectPromise this = Fulfilled ->
  BaseClient.connectStatus this = UNIMPLEMENTED ->
  let d := nullish data BaseClient.no_data in
  (BaseClient.checker d = None ->
     (forall m, BaseClient.message d = Some m -> m <> "" ->
        BaseClient.checkCompatibility this data = Rejects (Error m))
     /\ (~ Spec.provided (BaseClient.message d) ->
        BaseClient.checkCompatibility this data
        = Rejects (Error BaseClient.incompatible_message)))
  /\ (forall f, BaseClient.checker d = Some f ->
        BaseClient.checkCompatibility this data = f tt
        /\ (forall v, f tt = Resolves v ->
              BaseClient.checkCompatibility this data = Resolves v)).
Proof.
  intros Hp Hs d. unfold BaseClient.checkCompatibility.
  rewrite Hp, Hs. cbn [CONNECT_STATUS_eqb]. fold d. split.
  - intros ->. split.
    + intros m -> Hm. destruct m; [congruence | reflexivity].
    + intros Hn. destruct (BaseClient.message d) as [[| ch m] |]; try reflexivity.
      exfalso. apply Hn. eexists. split; [reflexivity | discriminate].
  - intros f ->. split; [reflexivity |]. intros v Hv. exact Hv.
Qed.

(** C3, as the code has it.  With the status [FAILED] the call never builds
    an incompatibility error and never calls the checker: its completion
    does not depend on the argument.  It rejects exactly when the awaited
    connect promise rejects, with the reason of that promise unchanged; when
    the connect promise has fulfilled it resolves to [undefined]. *)
Theorem failed_gate (this : BaseClient.t) (data : option BaseClient.CheckData) :
  BaseClient.connectStatus this = FAILED ->
  (forall e, BaseClient.connectPromise this = Rejected e ->
             BaseClient.checkCompatibility this data = Rejects e)
  /\ (BaseClient.connectPromise this = Fulfilled ->
      BaseClient.checkCompatibility this data = Resolves undefined)
  /\ (forall e, BaseClient.checkCompatibility this data = Rejects e ->
                BaseClient.connectPromise this = Rejected e)
  /\ (forall data', BaseClient.checkCompatibility this data'
                    = BaseClient.checkCompatibility this data).
Proof.
  intros Hs. unfold BaseClient.checkCompatibility. rewrite Hs.
  cbn [CONNECT_STATUS_eqb].
  destruct (BaseClient.connectPromise this) as [| reason |].
  - repeat split; try discriminate.
  - repeat split; try discriminate.
    + intros e He. injection He as <-. reflexivity.
    + intros e He. injection He as <-. reflexivity.
  - repeat split; discriminate.
Qed.

End GateProperties.

(** ** Collection creation *)

Section CreateCollectionProperties.
Context `{NodeHost}.

(** C9.  For every accepted request, the payload from which the collection
    schema is created has [autoID] true, whatever the caller's [autoID] is;
    and in every RPC the operation sends, the schema bytes are the encoding
    of the message created from such a payload. *)
Theorem createCollection_autoID_true (s : MilvusNode.Stub)
    (d : MilvusNode.CreateCollectionReq) :
  MilvusNode.accepted d = true ->
  (forall FieldSchema,
     MilvusNode.payload_autoID (MilvusNode.make_payload s FieldSchema d) = true)
  /\ (forall method request,
        In (MilvusNode.Rpc method request) (fst (MilvusNode.createCollection s d)) ->
        exists CollectionSchema FieldSchema,
          let payload := MilvusNode.make_payload s FieldSchema d in
          MilvusNode.encode_finish s CollectionSchema
            (MilvusNode.create_collection s CollectionSchema payload)
          = Return (MilvusNode.request_schema request)
          /\ MilvusNode.payload_autoID payload = true).
Proof.
  intros Hacc.
  assert (Hauto : forall F,
            MilvusNode.payload_autoID (MilvusNode.make_payload s F d) = true).
  { intros F. cbn. unfold or_bool. destruct (truthy_bool _); reflexivity. }
  split; [exact Hauto |].
  intros method request. unfold MilvusNode.createCollection.
  rewrite Hacc. cbn [negb].
  destruct (load schemaPath) as [[root |] | e |]; cbn; try tauto.
  destruct (root_lookupType root _) as [CS | e]; cbn; [| tauto].
  destruct (root_lookupType root _) as [FS | e]; cbn; [| tauto].
  destruct (MilvusNode.encode_finish s CS _) as [bytes | e] eqn:Henc; cbn; [| tauto].
  intros [Heq | []]. injection Heq as _ <-.
  exists CS, FS. split; [exact Henc | exact (Hauto FS)].
Qed.

End CreateCollectionProperties.

(** * The theorems at work on the sample host *)

Lemma tlsMode_is_SecurityMode_witness :
  @BaseClient.construct Sample.host (Sample.with_config Sample.mutual_tls_config)
  = (Sample.mutual_tls_trace, Return Sample.mutual_tls_client)
  /\ BaseClient.tlsMode Sample.mutual_tls_client = TWO_WAY.
Proof.
  assert (E : @BaseClient.construct Sample.host
                (Sample.with_config Sample.mutual_tls_config)
              = (Sample.mutual_tls_trace, Return Sample.mutual_tls_client))
    by (vm_compute; reflexivity).
  split; [exact E |].
  destruct (tlsMode_is_SecurityMode _ _ _ E) as (_ & Htwo & _).
  apply Htwo. eexists. split; [reflexivity |].
  exists "ca.pem". split; [reflexivity | discriminate].
Defined.

Lemma construct_requires_address_witness :
  @BaseClient.construct Sample.host (Sample.with_config Sample.empty_config)
  = ([], Throw (Error "The `address` property is missing.")).
Proof.
  apply (construct_requires_address (Sample.with_config Sample.empty_config)).
  left. reflexivity.
Defined.

Lemma credentials_are_strings_witness :
  ClientConfig.username (BaseClient.config Sample.mutual_tls_client) = Some "root"
  /\ ClientConfig.password (BaseClient.config Sample.mutual_tls_client) = Some "".
Proof.
  assert (E : @BaseClient.construct Sample.host
                (Sample.with_config Sample.mutual_tls_config)
              = (Sample.mutual_tls_trace, Return Sample.mutual_tls_client))
    by (vm_compute; reflexivity).
  destruct (credentials_are_strings _ _ _ E) as (_ & _ & Hp & Hu & _).
  split; [apply Hu | apply Hp]; reflexivity.
Defined.

Lemma timeout_resolution_witness :
  BaseClient.timeout Sample.mutual_tls_client = Num 15000
  /\ @parseTimeToken Sample.host "5s"
     = Return (BaseClient.timeout Sample.override_client).
Proof.
  assert (E : @BaseClient.construct Sample.host
                (Sample.with_config Sample.mutual_tls_config)
              = (Sample.mutual_tls_trace, Return Sample.mutual_tls_client))
    by (vm_compute; reflexivity).
  assert (E' : @BaseClient.construct Sample.host
                 (Sample.with_config Sample.override_config)
               = (Sample.override_trace, Return Sample.override_client))
    by (vm_compute; reflexivity).
  split.
  - apply (timeout_resolution _ _ _ E). left. reflexivity.
  - exact (timeout_resolution _ _ _ E').
Defined.

(** C6 as stated fails: the user asked for the target name [a.example], the
    TLS block names the server [b.example], and the client holds the
    latter. *)
Lemma channelOptions_not_layered_everywhere :
  ~ Spec.channelOptions_layered_everywhere
      (Sample.with_config Sample.override_config).
Proof.
  intros Hall.
  assert (E : @BaseClient.construct Sample.host
                (Sample.with_config Sample.override_config)
              = (Sample.override_trace, Return Sample.override_client))
    by (vm_compute; reflexivity).
  specialize (Hall _ _ E "grpc.ssl_target_name_override").
  vm_compute in Hall. discriminate Hall.
Qed.

Lemma channelOptions_layered_except_serverName_witness :
  BaseClient.channelOptions Sample.override_client !! "grpc.enable_retries"
  = Some (OptNum 0)
  /\ BaseClient.channelOptions Sample.override_client !! "grpc.keepalive_time_ms"
     = Some (OptNum 10000)
  /\ BaseClient.channelOptions Sample.override_client
       !! "grpc.ssl_target_name_override"
     = Some (OptStr "b.example").
Proof.
  assert (E : @BaseClient.construct Sample.host
                (Sample.with_config Sample.override_config)
              = (Sample.override_trace, Return Sample.override_client))
    by (vm_compute; reflexivity).
  destruct (channelOptions_layered_except_serverName _ _ _ E)
    as (Hother & Hname & _).
  split; [| split].
  - rewrite Hother by discriminate. vm_compute. reflexivity.
  - rewrite Hother by discriminate. vm_compute. reflexivity.
  - eapply Hname; [reflexivity | reflexivity | discriminate].
Defined.

Lemma two_way_pem_files_witness :
  (let run := @BaseClient.resolve_creds Sample.host TWO_WAY Sample.mutual_tls_config in
   In (ReadFileSync "client.key") (fst run)
   /\ exists root key chain,
        @Spec.material_of Sample.host (Some "ca.pem") root
        /\ @Spec.material_of Sample.host (Some "client.key") key
        /\ @Spec.material_of Sample.host None chain
        /\ In (CreateSsl root key chain) (fst run))
  /\ exists p e,
       @readFileSync Sample.host p = Throw e
       /\ snd (@BaseClient.construct Sample.host
                 (Sample.with_config Sample.broken_tls_config)) = Throw e.
Proof.
  split.
  - destruct (two_way_pem_files (Sample.with_config Sample.mutual_tls_config)
                _ eq_refl eq_refl) as (_ & Hok & _).
    destruct Hok as (Hread & root & key & chain & Hr & Hk & Hc & Hin & _).
    { intros p [Hin Hne]. cbn in Hin.
      destruct Hin as [Hin | [Hin | [Hin | []]]]; try discriminate Hin;
        injection Hin as <-; eexists; vm_compute; reflexivity. }
    split.
    + apply Hread. split; [cbn; auto | discriminate].
    + exists root, key, chain. auto.
  - destruct (two_way_pem_files (Sample.with_config Sample.broken_tls_config)
                _ eq_refl eq_refl) as (_ & _ & Hfail).
    destruct Hfail as (p & e & _ & Hr & _ & _ & _ & Hctor).
    { exists "missing.pem", (HostError "ENOENT").
      split; [split; [cbn; auto | discriminate] | reflexivity]. }
    exists p, e. split; [exact Hr |].
    eapply Hctor; reflexivity.
Defined.

Lemma unimplemented_gate_witness :
  let this := Sample.after_handshake UNIMPLEMENTED Fulfilled in
  BaseClient.checkCompatibility this (Some Sample.with_message)
  = Rejects (Error "too old")
  /\ BaseClient.checkCompatibility this None
     = Rejects (Error BaseClient.incompatible_message)
  /\ BaseClient.checkCompatibility this (Some Sample.with_checker)
     = Resolves (Some "fallback").
Proof.
  intros this. split; [| split].
  - apply (unimplemented_gate this (Some Sample.with_message) eq_refl eq_refl);
      [reflexivity | reflexivity | discriminate].
  - apply (unimplemented_gate this None eq_refl eq_refl); [reflexivity |].
    intros (m & Hm & _). discriminate Hm.
  - eapply (unimplemented_gate this (Some Sample.with_checker) eq_refl eq_refl);
      reflexivity.
Defined.

(** C3 as stated fails: the status is [FAILED], the connect promise is the
    fulfilled one the constructor left, and the call resolves. *)
Lemma failed_status_without_rejection :
  ~ Spec.failed_status_rejects (Sample.after_handshake FAILED Fulfilled) None.
Proof.
  intros Hrej. destruct (Hrej eq_refl) as [e He].
  vm_compute in He. discriminate He.
Qed.

Lemma failed_gate_witness :
  BaseClient.checkCompatibility
    (Sample.after_handshake FAILED (Rejected (HostError "14 UNAVAILABLE")))
    (Some Sample.with_message)
  = Rejects (HostError "14 UNAVAILABLE")
  /\ BaseClient.checkCompatibility (Sample.after_handshake FAILED Fulfilled) None
     = Resolves None.
Proof.
  split.
  - destruct (failed_gate
                (Sample.after_handshake FAILED (Rejected (HostError "14 UNAVAILABLE")))
                (Some Sample.with_message) eq_refl) as (Hrej & _).
    apply Hrej. reflexivity.
  - destruct (failed_gate (Sample.after_handshake FAILED Fulfilled) None eq_refl)
      as (_ & Hres & _).
    apply Hres. reflexivity.
Defined.

Lemma createCollection_autoID_true_witness :
  MilvusNode.accepted SampleNode.request = true
  /\ fst (MilvusNode.createCollection SampleNode.stub SampleNode.request)
     = [MilvusNode.Rpc "CreateCollection"
          (@MilvusNode.Build_Request SampleNode.host SampleNode.request ("c1", true))]
  /\ MilvusNode.payload_autoID
       (MilvusNode.make_payload SampleNode.stub
          "milvus.proto.schema.FieldSchema" SampleNode.request) = true.
Proof.
  split; [reflexivity |]. split; [reflexivity |].
  apply (createCollection_autoID_true SampleNode.stub SampleNode.request eq_refl).
Defined.

(** * Further properties of the constructor *)

Section ConstructorRuns.
Context `{Host}.

Lemma resolve_timeout_no_call (c : ClientConfig.t) :
  fst (BaseClient.resolve_timeout c) = [].
Proof.
  unfold BaseClient.resolve_timeout.
  destruct (ClientConfig.timeout c) as [[n | s] |]; reflexivity.
Qed.

(** The constructor stops at the first schema file that does not load. *)
Lemma construct_schema_throw (a : BaseClient.Args) e :
  let cfg := BaseClient.normalize_credentials (BaseClient.initial_config a) in
  let paths := BaseClient.resolve_protoFilePath cfg in
  truthy_str (ClientConfig.address (BaseClient.initial_config a)) = true ->
  loadSync (BaseClient.schema paths) = Throw e ->
  BaseClient.construct a = ([LoadSync (BaseClient.schema paths)], Throw e).
Proof.
  intros cfg paths Haddr Hsp.
  unfold BaseClient.construct. rewrite Haddr. cbn [negb].
  fold cfg. fold paths. unfold call. rewrite Hsp. reflexivity.
Qed.

Lemma construct_milvus_throw (a : BaseClient.Args) sp e :
  let cfg := BaseClient.normalize_credentials (BaseClient.initial_config a) in
  let paths := BaseClient.resolve_protoFilePath cfg in
  truthy_str (ClientConfig.address (BaseClient.initial_config a)) = true ->
  loadSync (BaseClient.schema paths) = Return sp ->
  loadSync (BaseClient.milvus paths) = Throw e ->
  BaseClient.construct a
  = ([LoadSync (BaseClient.schema paths); LoadSync (BaseClient.milvus paths)],
     Throw e).
Proof.
  intros cfg paths Haddr Hsp Hmp.
  unfold BaseClient.construct. rewrite Haddr. cbn [negb].
  fold cfg. fold paths. unfold call. rewrite Hsp, Hmp. reflexivity.
Qed.

Lemma construct_lookup_throw (a : BaseClient.Args) sp mp e :
  let cfg := BaseClient.normalize_credentials (BaseClient.initial_config a) in
  let paths := BaseClient.resolve_protoFilePath cfg in
  truthy_str (ClientConfig.address (BaseClient.initial_config a)) = true ->
  loadSync (BaseClient.schema paths) = Return sp ->
  loadSync (BaseClient.milvus paths) = Return mp ->
  lookupType sp BaseClient.protoInternalPath_collectionSchema = Throw e \/
  (exists cs,
     lookupType sp BaseClient.protoInternalPath_collectionSchema = Return cs /\
     lookupType sp BaseClient.protoInternalPath_fieldSchema = Throw e) ->
  BaseClient.construct a
  = ([LoadSync (BaseClient.schema paths); LoadSync (BaseClient.milvus paths)],
     Throw e).
Proof.
  intros cfg paths Haddr Hsp Hmp Hlookup.
  unfold BaseClient.construct. rewrite Haddr. cbn [negb].
  fold cfg. fold paths. unfold call, lift. rewrite Hsp, Hmp. cbn [bind].
  destruct Hlookup as [Hcs | (cs & Hcs & Hfs)]; rewrite Hcs; cbn [bind].
  - reflexivity.
  - rewrite Hfs. reflexivity.
Qed.

Lemma construct_timeout_throw (a : BaseClient.Args) sp mp cs fs t cr e :
  let cfg := BaseClient.normalize_credentials (BaseClient.initial_config a) in
  let paths := BaseClient.resolve_protoFilePath cfg in
  truthy_str (ClientConfig.address (BaseClient.initial_config a)) = true ->
  loadSync (BaseClient.schema paths) = Return sp ->
  loadSync (BaseClient.milvus paths) = Return mp ->
  lookupType sp BaseClient.protoInternalPath_collectionSchema = Return cs ->
  lookupType sp BaseClient.protoInternalPath_fieldSchema = Return fs ->
  BaseClient.resolve_creds (BaseClient.resolve_tlsMode cfg) cfg = (t, Return cr) ->
  snd (BaseClient.resolve_timeout cfg) = Throw e ->
  BaseClient.construct a
  = ([LoadSync (BaseClient.schema paths); LoadSync (BaseClient.milvus paths)] ++ t,
     Throw e)%list.
Proof.
  intros cfg paths Haddr Hsp Hmp Hcs Hfs Hcreds Htm.
  pose proof (resolve_timeout_no_call cfg) as Hno.
  destruct (BaseClient.resolve_timeout cfg) as [t' r] eqn:Hrun.
  cbn in Hno, Htm. subst t' r.
  unfold BaseClient.construct. rewrite Haddr. cbn [negb].
  fold cfg. fold paths. unfold call, lift. rewrite Hsp, Hmp. cbn [bind].
  rewrite Hcs. cbn [bind]. rewrite Hfs. cbn [bind]. rewrite Hcreds.
  cbn [bind]. rewrite Hrun. cbn [bind app]. rewrite app_nil_r. reflexivity.
Qed.

(** The client that the constructor builds when every step returns. *)
Lemma construct_return (a : BaseClient.Args) sp mp cs fs t cr tm :
  let cfg := BaseClient.normalize_credentials (BaseClient.initial_config a) in
  let paths := BaseClient.resolve_protoFilePath cfg in
  truthy_str (ClientConfig.address (BaseClient.initial_config a)) = true ->
  loadSync (BaseClient.schema paths) = Return sp ->
  loadSync (BaseClient.milvus paths) = Return mp ->
  lookupType sp BaseClient.protoInternalPath_collectionSchema = Return cs ->
  lookupType sp BaseClient.protoInternalPath_fieldSchema = Return fs ->
  BaseClient.resolve_creds (BaseClient.resolve_tlsMode cfg) cfg = (t, Return cr) ->
  snd (BaseClient.resolve_timeout cfg) = Return tm ->
  BaseClient.construct a
  = (([LoadSync (BaseClient.schema paths); LoadSync (BaseClient.milvus paths)] ++ t)%list,
     Return
       {| BaseClient.clientId :=
            if truthy_str (ClientConfig.id cfg)
            then nullish (ClientConfig.id cfg) randomUUID
            else randomUUID;
          BaseClient.connectStatus := NOT_CONNECTED;
          BaseClient.connectPromise := Fulfilled;
          BaseClient.tlsMode := BaseClient.resolve_tlsMode cfg;
          BaseClient.config := cfg;
          BaseClient.channelOptions := BaseClient.resolve_channelOptions cfg;
          BaseClient.serverInfo := ∅;
          BaseClient.timeout := tm;
          BaseClient.protoFilePath := paths;
          BaseClient.creds := cr;
          BaseClient.metadata := ∅;
          BaseClient.schemaProto := sp;
          BaseClient.milvusProto := mp;
          BaseClient.collectionSchemaType := cs;
          BaseClient.fieldSchemaType := fs |}).
Proof.
  intros cfg paths Haddr Hsp Hmp Hcs Hfs Hcreds Htm.
  pose proof (resolve_timeout_no_call cfg) as Hno.
  destruct (BaseClient.resolve_timeout cfg) as [t' r] eqn:Hrun.
  cbn in Hno, Htm. subst t' r.
  unfold BaseClient.construct. rewrite Haddr. cbn [negb].
  fold cfg. fold paths. unfold call, lift. rewrite Hsp, Hmp. cbn [bind].
  rewrite Hcs. cbn [bind]. rewrite Hfs. cbn [bind]. rewrite Hcreds.
  cbn [bind]. rewrite Hrun. cbn [bind ret app]. rewrite !app_nil_r. reflexivity.
Qed.

(** Conversely: what happened when the constructor returned. *)
Lemma construct_inv (a : BaseClient.Args) tr c :
  BaseClient.construct a = (tr, Return c) ->
  let cfg := BaseClient.normalize_credentials (BaseClient.initial_config a) in
  let paths := BaseClient.resolve_protoFilePath cfg in
  exists sp mp cs fs t,
    truthy_str (ClientConfig.address (BaseClient.initial_config a)) = true
    /\ loadSync (BaseClient.schema paths) = Return sp
    /\ loadSync (BaseClient.milvus paths) = Return mp
    /\ lookupType sp BaseClient.protoInternalPath_collectionSchema = Return cs
    /\ lookupType sp BaseClient.protoInternalPath_fieldSchema = Return fs
    /\ BaseClient.resolve_creds (BaseClient.resolve_tlsMode cfg) cfg
       = (t, Return (BaseClient.creds c))
    /\ snd (BaseClient.resolve_timeout cfg) = Return (BaseClient.timeout c)
    /\ tr = ([LoadSync (BaseClient.schema paths);
              LoadSync (BaseClient.milvus paths)] ++ t)%list
    /\ BaseClient.protoFilePath c = paths
    /\ BaseClient.clientId c
       = (if truthy_str (ClientConfig.id cfg)
          then nullish (ClientConfig.id cfg) randomUUID
          else randomUUID).
Proof.
  intros Hc cfg paths.
  destruct (truthy_str (ClientConfig.address (BaseClient.initial_config a)))
    eqn:Haddr.
  2: { unfold BaseClient.construct in Hc. rewrite Haddr in Hc. discriminate Hc. }
  destruct (loadSync (BaseClient.schema paths)) as [sp | e] eqn:Hsp.
  2: { rewrite (construct_schema_throw a e Haddr Hsp) in Hc. discriminate Hc. }
  destruct (loadSync (BaseClient.milvus paths)) as [mp | e] eqn:Hmp.
  2: { rewrite (construct_milvus_throw a sp e Haddr Hsp Hmp) in Hc.
       discriminate Hc. }
  destruct (lookupType sp BaseClient.protoInternalPath_collectionSchema)
    as [cs | e] eqn:Hcs.
  2: { rewrite (construct_lookup_throw a sp mp e Haddr Hsp Hmp (or_introl Hcs)) in Hc.
       discriminate Hc. }
  destruct (lookupType sp BaseClient.protoInternalPath_fieldSchema)
    as [fs | e] eqn:Hfs.
  2: { rewrite (construct_lookup_throw a sp mp e Haddr Hsp Hmp
                  (or_intror (ex_intro _ cs (conj Hcs Hfs)))) in Hc.
       discriminate Hc. }
  destruct (BaseClient.resolve_creds (BaseClient.resolve_tlsMode cfg) cfg)
    as [t [cr | e]] eqn:Hcreds.
  2: { rewrite (construct_creds_throw a sp mp cs fs t e Haddr Hsp Hmp Hcs Hfs Hcreds)
         in Hc. discriminate Hc. }
  destruct (snd (BaseClient.resolve_timeout cfg)) as [tm | e] eqn:Htm.
  2: { rewrite (construct_timeout_throw a sp mp cs fs t cr e
                  Haddr Hsp Hmp Hcs Hfs Hcreds Htm) in Hc. discriminate Hc. }
  rewrite (construct_return a sp mp cs fs t cr tm Haddr Hsp Hmp Hcs Hfs Hcreds Htm)
    in Hc.
  injection Hc as <- <-. cbn.
  exists sp, mp, cs, fs, t. repeat split; first [assumption | reflexivity].
Qed.

End ConstructorRuns.

(** ** The switch on the TLS mode, run by run *)

Section CredentialRuns.
Context `{Host}.

Local Ltac three_paths tls :=
  let Hn1 := fresh "Hn1" in let E1 := fresh "E1" in
  let Hn2 := fresh "Hn2" in let E2 := fresh "E2" in
  let Hn3 := fresh "Hn3" in let E3 := fresh "E3" in
  unfold BaseClient.resolve_creds;
  match goal with Htls : ClientConfig.tls _ = Some tls |- _ => rewrite Htls end;
  unfold Spec.configured, Spec.pem_paths;
  destruct (read_if_provided_cases (ClientConfig.rootCertPath tls))
    as [[Hn1 E1] | (p1 & Hp1 & Hne1 & [(b1 & Hr1 & E1) | (e1 & Hr1 & E1)])];
  destruct (read_if_provided_cases (ClientConfig.privateKeyPath tls))
    as [[Hn2 E2] | (p2 & Hp2 & Hne2 & [(b2 & Hr2 & E2) | (e2 & Hr2 & E2)])];
  destruct (read_if_provided_cases (ClientConfig.certChainPath tls))
    as [[Hn3 E3] | (p3 & Hp3 & Hne3 & [(b3 & Hr3 & E3) | (e3 & Hr3 & E3)])];
  rewrite E1, ?E2, ?E3; cbn [bind call fst snd app In];
  try rewrite Hp1 in *; try rewrite Hp2 in *; try rewrite Hp3 in *.

Local Ltac cases_in :=
  repeat match goal with
         | Hin : _ \/ _ |- _ => destruct Hin as [Hin | Hin]
         | Hin : False |- _ => contradiction
         end.

Local Ltac material_here :=
  match goal with
  | |- Spec.material_of (Some _) (Some _) => apply material_of_read; assumption
  | |- Spec.material_of _ None => apply material_of_absent; assumption
  end.

(** Every call made by the switch in [TWO_WAY] mode is the read of a provided
    PEM path or the one call of [createSsl]. *)
Lemma two_way_run_events (c : ClientConfig.t) tls ev :
  ClientConfig.tls c = Some tls ->
  In ev (fst (BaseClient.resolve_creds TWO_WAY c)) ->
  (exists p, ev = ReadFileSync p /\ Spec.configured tls p)
  \/ (exists root key chain, ev = CreateSsl root key chain).
Proof.
  intros Htls. three_paths tls.
  all: intros Hin; cases_in; subst ev.
  all: first [ left; eexists; split; [reflexivity | split; auto 6]
             | right; eauto ].
Qed.

(** When the switch returns in [TWO_WAY] mode, it has read provided paths
    only and has ended with the call of [createSsl] on the material of the
    three paths. *)
Lemma two_way_run_return (c : ClientConfig.t) tls t cr :
  ClientConfig.tls c = Some tls ->
  BaseClient.resolve_creds TWO_WAY c = (t, Return cr) ->
  exists reads root key chain,
    t = (reads ++ [CreateSsl root key chain])%list
    /\ (forall ev, In ev reads ->
          exists p, ev = ReadFileSync p /\ Spec.configured tls p)
    /\ Spec.material_of (ClientConfig.rootCertPath tls) root
    /\ Spec.material_of (ClientConfig.privateKeyPath tls) key
    /\ Spec.material_of (ClientConfig.certChainPath tls) chain
    /\ createSsl root key chain (ClientConfig.verifyOptions tls) = Return cr.
Proof.
  intros Htls. three_paths tls.
  all: intros Heq; try discriminate Heq; injection Heq as <- Hcr.
  all: match goal with
       | |- exists _ _ _ _, [CreateSsl ?r ?k ?ch] = _ /\ _ =>
           exists [], r, k, ch
       | |- exists _ _ _ _, [?x; CreateSsl ?r ?k ?ch] = _ /\ _ =>
           exists [x], r, k, ch
       | |- exists _ _ _ _, [?x; ?y; CreateSsl ?r ?k ?ch] = _ /\ _ =>
           exists [x; y], r, k, ch
       | |- exists _ _ _ _, [?x; ?y; ?z; CreateSsl ?r ?k ?ch] = _ /\ _ =>
           exists [x; y; z], r, k, ch
       end.
  all: split; [reflexivity |].
  all: split;
    [ intros ev Hin; cbn [In] in Hin; cases_in; subst ev;
      eexists; split; try reflexivity; split; auto 6 |].
  all: repeat (split; [material_here |]); exact Hcr.
Qed.

(** The switch returns in [TWO_WAY] mode as soon as the provided paths can be
    read and [createSsl] accepts the material read. *)
Lemma two_way_run_ok (c : ClientConfig.t) tls :
  ClientConfig.tls c = Some tls ->
  (forall p, Spec.configured tls p -> exists b, readFileSync p = Return b) ->
  (forall root key chain,
     Spec.material_of (ClientConfig.rootCertPath tls) root ->
     Spec.material_of (ClientConfig.privateKeyPath tls) key ->
     Spec.material_of (ClientConfig.certChainPath tls) chain ->
     exists cr, createSsl root key chain (ClientConfig.verifyOptions tls)
                = Return cr) ->
  exists t cr, BaseClient.resolve_creds TWO_WAY c = (t, Return cr).
Proof.
  intros Htls. three_paths tls.
  all: intros Hall Hssl.
  all: try match goal with
           | Hr : readFileSync ?p = Throw _ |- _ =>
               let b := fresh "b" in
               let Hb := fresh "Hb" in
               destruct (Hall p) as [b Hb];
               [split; auto 6 | rewrite Hr in Hb; discriminate Hb]
           end.
  all: match goal with
       | |- context [createSsl ?r ?k ?ch _] =>
           let cr := fresh "cr" in
           let Hcr := fresh "Hcr" in
           destruct (Hssl r k ch) as [cr Hcr];
           [material_here | material_here | material_here |];
           rewrite Hcr; eauto
       end.
Qed.

(** Outside [TWO_WAY] mode the switch makes one call, which reads no file. *)
Lemma other_modes_run (mode : TLS_MODE) (c : ClientConfig.t) :
  mode <> TWO_WAY ->
  BaseClient.resolve_creds mode c
  = match mode with
    | DISABLED => ([CreateInsecure], createInsecure)
    | _ => ([CreateSsl None None None], createSsl None None None None)
    end.
Proof. destruct mode; [reflexivity | reflexivity | congruence]. Qed.

(** The mode is [TWO_WAY] exactly when a root-certificate path is provided. *)
Lemma two_way_iff_rootCertPath (c : ClientConfig.t) :
  BaseClient.resolve_tlsMode c = TWO_WAY <-> BaseClient.has_rootCertPath c = true.
Proof.
  unfold BaseClient.resolve_tlsMode, BaseClient.tlsMode_by_scheme.
  destruct (BaseClient.has_rootCertPath c); [tauto |].
  destruct (_ || _); split; discriminate.
Qed.

(** The calls of a construction, whatever its outcome. *)
Lemma construct_trace_cases (a : BaseClient.Args) :
  let cfg := BaseClient.normalize_credentials (BaseClient.initial_config a) in
  let paths := BaseClient.resolve_protoFilePath cfg in
  let loads := [LoadSync (BaseClient.schema paths);
                LoadSync (BaseClient.milvus paths)] in
  fst (BaseClient.construct a) = []
  \/ fst (BaseClient.construct a) = [LoadSync (BaseClient.schema paths)]
  \/ fst (BaseClient.construct a) = loads
  \/ fst (BaseClient.construct a)
     = (loads ++ fst (BaseClient.resolve_creds (BaseClient.resolve_tlsMode cfg) cfg))%list.
Proof.
  intros cfg paths loads.
  destruct (truthy_str (ClientConfig.address (BaseClient.initial_config a)))
    eqn:Haddr.
  2: { left. unfold BaseClient.construct. rewrite Haddr. reflexivity. }
  destruct (loadSync (BaseClient.schema paths)) as [sp | e] eqn:Hsp.
  2: { right; left. rewrite (construct_schema_throw a e Haddr Hsp). reflexivity. }
  destruct (loadSync (BaseClient.milvus paths)) as [mp | e] eqn:Hmp.
  2: { right; right; left.
       rewrite (construct_milvus_throw a sp e Haddr Hsp Hmp). reflexivity. }
  destruct (lookupType sp BaseClient.protoInternalPath_collectionSchema)
    as [cs | e] eqn:Hcs.
  2: { right; right; left.
       rewrite (construct_lookup_throw a sp mp e Haddr Hsp Hmp (or_introl Hcs)).
       reflexivity. }
  destruct (lookupType sp BaseClient.protoInternalPath_fieldSchema)
    as [fs | e] eqn:Hfs.
  2: { right; right; left.
       rewrite (construct_lookup_throw a sp mp e Haddr Hsp Hmp
                  (or_intror (ex_intro _ cs (conj Hcs Hfs)))).
       reflexivity. }
  right; right; right.
  destruct (BaseClient.resolve_creds (BaseClient.resolve_tlsMode cfg) cfg)
    as [t [cr | e]] eqn:Hcreds.
  2: { rewrite (construct_creds_throw a sp mp cs fs t e Haddr Hsp Hmp Hcs Hfs Hcreds).
       reflexivity. }
  destruct (snd (BaseClient.resolve_timeout cfg)) as [tm | e] eqn:Htm.
  - rewrite (construct_return a sp mp cs fs t cr tm Haddr Hsp Hmp Hcs Hfs Hcreds Htm).
    reflexivity.
  - rewrite (construct_timeout_throw a sp mp cs fs t cr e
               Haddr Hsp Hmp Hcs Hfs Hcreds Htm).
    reflexivity.
Qed.

End CredentialRuns.

(** ** What the constructor does, step by step *)

Section ConstructorProperties.
Context `{Host}.

(** X1.  The constructor returns a client as soon as the address is
    provided, both schema files load, both message types resolve, a timeout
    given as a string is a token the parser understands, and the one
    creation of credentials that the TLS mode asks for returns: in
    [DISABLED] mode [createInsecure]; in [ONE_WAY] mode [createSsl] without
    material; in [TWO_WAY] mode the provided PEM files can be read and
    [createSsl] returns on the material read. *)
Theorem construct_returns (a : BaseClient.Args) sp mp cs fs :
  let cfg := BaseClient.initial_config a in
  let paths := BaseClient.resolve_protoFilePath cfg in
  Spec.provided (ClientConfig.address cfg) ->
  loadSync (BaseClient.schema paths) = Return sp ->
  loadSync (BaseClient.milvus paths) = Return mp ->
  lookupType sp BaseClient.protoInternalPath_collectionSchema = Return cs ->
  lookupType sp BaseClient.protoInternalPath_fieldSchema = Return fs ->
  match BaseClient.resolve_tlsMode cfg with
  | DISABLED => exists cr, createInsecure = Return cr
  | ONE_WAY => exists cr, createSsl None None None None = Return cr
  | TWO_WAY =>
      forall tls, ClientConfig.tls cfg = Some tls ->
        (forall p, Spec.configured tls p -> exists b, readFileSync p = Return b)
        /\ (forall root key chain,
              Spec.material_of (ClientConfig.rootCertPath tls) root ->
              Spec.material_of (ClientConfig.privateKeyPath tls) key ->
              Spec.material_of (ClientConfig.certChainPath tls) chain ->
              exists cr, createSsl root key chain (ClientConfig.verifyOptions tls)
                         = Return cr)
  end ->
  (forall s, ClientConfig.timeout cfg = Some (ClientConfig.Token s) ->
             exists n, parseTimeToken s = Return n) ->
  exists tr c, BaseClient.construct a = (tr, Return c).
Proof.
  intros cfg paths Haddr Hsp Hmp Hcs Hfs Hmake Htoken.
  apply truthy_str_provided in Haddr.
  set (cfg' := BaseClient.normalize_credentials cfg).
  assert (Hcreds : exists t cr,
            BaseClient.resolve_creds (BaseClient.resolve_tlsMode cfg') cfg'
            = (t, Return cr)).
  { change (BaseClient.resolve_tlsMode cfg') with (BaseClient.resolve_tlsMode cfg).
    destruct (BaseClient.resolve_tlsMode cfg) eqn:Hmode.
    - rewrite other_modes_run by discriminate.
      destruct Hmake as [cr Hcr]. rewrite Hcr. eauto.
    - rewrite other_modes_run by discriminate.
      destruct Hmake as [cr Hcr]. rewrite Hcr. eauto.
    - destruct (two_way_has_tls _ Hmode) as [tls Htls].
      destruct (Hmake tls Htls) as [Hread Hssl].
      apply (two_way_run_ok cfg' tls Htls Hread Hssl). }
  destruct Hcreds as (t & cr & Hcreds).
  assert (Htm : exists tm, snd (BaseClient.resolve_timeout cfg') = Return tm).
  { unfold BaseClient.resolve_timeout.
    change (ClientConfig.timeout cfg') with (ClientConfig.timeout cfg).
    destruct (ClientConfig.timeout cfg) as [[n | s] |] eqn:Ht.
    - cbn. eauto.
    - destruct (Htoken s eq_refl) as [n Hn]. cbn. rewrite Hn. eauto.
    - cbn. eauto. }
  destruct Htm as [tm Htm].
  eexists _, _.
  exact (construct_return a sp mp cs fs t cr tm Haddr Hsp Hmp Hcs Hfs Hcreds Htm).
Qed.

(** X2.  When a schema file does not load, or a message type does not
    resolve in the schema file, the constructor throws that very error, and
    all it has done by then is loading schema files: no PEM file was read and
    no credentials were created.  When it is the first file (the schema one)
    that fails, the second is not loaded. *)
Theorem schema_failure_aborts (a : BaseClient.Args) e :
  let cfg := BaseClient.initial_config a in
  let paths := BaseClient.resolve_protoFilePath cfg in
  Spec.provided (ClientConfig.address cfg) ->
  loadSync (BaseClient.schema paths) = Throw e
  \/ (exists sp,
        loadSync (BaseClient.schema paths) = Return sp /\
        (loadSync (BaseClient.milvus paths) = Throw e
         \/ (exists mp,
               loadSync (BaseClient.milvus paths) = Return mp /\
               (lookupType sp BaseClient.protoInternalPath_collectionSchema = Throw e
                \/ (exists cs,
                      lookupType sp BaseClient.protoInternalPath_collectionSchema
                      = Return cs /\
                      lookupType sp BaseClient.protoInternalPath_fieldSchema
                      = Throw e))))) ->
  snd (BaseClient.construct a) = Throw e
  /\ (forall ev, In ev (fst (BaseClient.construct a)) -> exists p, ev = LoadSync p)
  /\ (loadSync (BaseClient.schema paths) = Throw e ->
      fst (BaseClient.construct a) = [LoadSync (BaseClient.schema paths)]).
Proof.
  intros cfg paths Haddr Hfail. apply truthy_str_provided in Haddr.
  destruct Hfail as [Hsp | (sp & Hsp & [Hmp | (mp & Hmp & Hlookup)])].
  - rewrite (construct_schema_throw a e Haddr Hsp). cbn.
    split; [reflexivity |]. split; [| reflexivity].
    intros ev [<- | []]. eauto.
  - rewrite (construct_milvus_throw a sp e Haddr Hsp Hmp). cbn.
    split; [reflexivity |]. split.
    + intros ev [<- | [<- | []]]; eauto.
    + intros Hsp'. fold cfg in Hsp. fold paths in Hsp. congruence.
  - rewrite (construct_lookup_throw a sp mp e Haddr Hsp Hmp Hlookup). cbn.
    split; [reflexivity |]. split.
    + intros ev [<- | [<- | []]]; eauto.
    + intros Hsp'. fold cfg in Hsp. fold paths in Hsp. congruence.
Qed.

(** X3.  The calls of a successful construction, in order: the schema file
    is loaded, then the service file, both at the paths the client keeps;
    then PEM files are read, if any; the last call, and the only one of its
    kind, creates the credentials. *)
Theorem construct_trace_shape (a : BaseClient.Args) tr c :
  BaseClient.construct a = (tr, Return c) ->
  exists reads ev,
    tr = ([LoadSync (BaseClient.schema (BaseClient.protoFilePath c));
           LoadSync (BaseClient.milvus (BaseClient.protoFilePath c))]
          ++ reads ++ [ev])%list
    /\ (forall r, In r reads -> exists p, r = ReadFileSync p)
    /\ is_file_io ev = false.
Proof.
  intros Hc.
  destruct (construct_inv a tr c Hc)
    as (sp & mp & cs & fs & t & _ & _ & _ & _ & _ & Hcreds & _ & -> & -> & _).
  set (cfg := BaseClient.normalize_credentials (BaseClient.initial_config a)) in *.
  destruct (BaseClient.resolve_tlsMode cfg) eqn:Hmode.
  - rewrite other_modes_run in Hcreds by discriminate.
    injection Hcreds as <- _. exists [], CreateInsecure.
    split; [reflexivity |]. split; [intros r [] | reflexivity].
  - rewrite other_modes_run in Hcreds by discriminate.
    injection Hcreds as <- _. exists [], (CreateSsl None None None).
    split; [reflexivity |]. split; [intros r [] | reflexivity].
  - destruct (two_way_has_tls _ Hmode) as [tls Htls].
    destruct (two_way_run_return cfg tls t _ Htls Hcreds)
      as (reads & root & key & chain & -> & Hreads & _).
    exists reads, (CreateSsl root key chain).
    split; [reflexivity |]. split; [| reflexivity].
    intros r Hr. destruct (Hreads r Hr) as (p & -> & _). eauto.
Qed.

(** X4.  The schema files are loaded from the paths the configuration gives
    in [protoFilePath], each on its own: a path that is given is used as it
    is, the empty string included; a path that is not given falls back to
    the bundled file. *)
Theorem protoFilePath_override (a : BaseClient.Args) tr c :
  BaseClient.construct a = (tr, Return c) ->
  let cfg := BaseClient.initial_config a in
  let kept := BaseClient.protoFilePath c in
  In (LoadSync (BaseClient.schema kept)) tr
  /\ In (LoadSync (BaseClient.milvus kept)) tr
  /\ (forall p s, ClientConfig.protoFilePath cfg = Some p ->
                  ClientConfig.schema p = Some s -> BaseClient.schema kept = s)
  /\ (forall p m, ClientConfig.protoFilePath cfg = Some p ->
                  ClientConfig.milvus p = Some m -> BaseClient.milvus kept = m)
  /\ (forall p, ClientConfig.protoFilePath cfg = Some p ->
                ClientConfig.schema p = None ->
                BaseClient.schema kept = schemaProtoPath)
  /\ (forall p, ClientConfig.protoFilePath cfg = Some p ->
                ClientConfig.milvus p = None ->
                BaseClient.milvus kept = milvusProtoPath)
  /\ (ClientConfig.protoFilePath cfg = None ->
      BaseClient.schema kept = schemaProtoPath
      /\ BaseClient.milvus kept = milvusProtoPath).
Proof.
  intros Hc cfg kept.
  destruct (construct_inv a tr c Hc)
    as (sp & mp & cs & fs & t & _ & _ & _ & _ & _ & _ & _ & Htr & Hpaths & _).
  subst kept. rewrite Hpaths. rewrite Htr.
  unfold BaseClient.resolve_protoFilePath.
  change (ClientConfig.protoFilePath
            (BaseClient.normalize_credentials (BaseClient.initial_config a)))
    with (ClientConfig.protoFilePath cfg).
  split; [cbn; auto |]. split; [cbn; auto |].
  destruct (ClientConfig.protoFilePath cfg) as [p |]; cbn.
  - repeat split; try discriminate.
    + intros p' s Heq Hs. injection Heq as <-. rewrite Hs. reflexivity.
    + intros p' m Heq Hm. injection Heq as <-. rewrite Hm. reflexivity.
    + intros p' Heq Hs. injection Heq as <-. rewrite Hs. reflexivity.
    + intros p' Heq Hm. injection Heq as <-. rewrite Hm. reflexivity.
  - repeat split; discriminate.
Qed.

(** X5.  The client identifier is the [id] of the configuration when one is
    provided (a non-empty string), and the freshly generated UUID
    otherwise. *)
Theorem clientId_resolution (a : BaseClient.Args) tr c :
  BaseClient.construct a = (tr, Return c) ->
  let cfg := BaseClient.initial_config a in
  (forall i, ClientConfig.id cfg = Some i -> i <> "" -> BaseClient.clientId c = i)
  /\ (~ Spec.provided (ClientConfig.id cfg) -> BaseClient.clientId c = randomUUID).
Proof.
  intros Hc cfg.
  destruct (construct_inv a tr c Hc)
    as (sp & mp & cs & fs & t & _ & _ & _ & _ & _ & _ & _ & _ & _ & Hid).
  rewrite Hid.
  change (ClientConfig.id
            (BaseClient.normalize_credentials (BaseClient.initial_config a)))
    with (ClientConfig.id cfg).
  split.
  - intros i -> Hi. destruct i; [congruence | reflexivity].
  - intros Hn. destruct (truthy_str (ClientConfig.id cfg)) eqn:Ht; [| reflexivity].
    apply truthy_str_provided in Ht. contradiction.
Qed.

(** X6.  Whatever the outcome of the construction, a file is read only in
    mutual-TLS mode, and then only at a provided PEM path: a private-key or
    certificate-chain path given without a root-certificate path is never
    read. *)
Theorem read_only_in_two_way (a : BaseClient.Args) p :
  In (ReadFileSync p) (fst (BaseClient.construct a)) ->
  let cfg := BaseClient.initial_config a in
  Spec.rootCertPath_present cfg
  /\ exists tls, ClientConfig.tls cfg = Some tls /\ Spec.configured tls p.
Proof.
  intros Hin cfg.
  set (cfg' := BaseClient.normalize_credentials (BaseClient.initial_config a)).
  assert (Hrun : In (ReadFileSync p)
                   (fst (BaseClient.resolve_creds (BaseClient.resolve_tlsMode cfg') cfg'))).
  { destruct (construct_trace_cases a) as [E | [E | [E | E]]];
      rewrite E in Hin; cbn [In app] in Hin.
    - contradiction.
    - destruct Hin as [Hin | []]. discriminate Hin.
    - destruct Hin as [Hin | [Hin | []]]; discriminate Hin.
    - destruct Hin as [Hin | [Hin | Hin]]; try discriminate Hin. exact Hin. }
  destruct (BaseClient.resolve_tlsMode cfg') eqn:Hmode.
  - rewrite other_modes_run in Hrun by discriminate.
    destruct Hrun as [Hrun | []]. discriminate Hrun.
  - rewrite other_modes_run in Hrun by discriminate.
    destruct Hrun as [Hrun | []]. discriminate Hrun.
  - split.
    + apply has_rootCertPath_present, two_way_iff_rootCertPath. exact Hmode.
    + destruct (two_way_has_tls _ Hmode) as [tls Htls]. exists tls.
      split; [exact Htls |].
      destruct (two_way_run_events cfg' tls _ Htls Hrun)
        as [(p' & Heq & Hp') | (root & key & chain & Heq)].
      * injection Heq as ->. exact Hp'.
      * discriminate Heq.
Qed.

(** X7.  The credentials of a constructed client match its TLS mode.  In
    [DISABLED] mode they are the insecure credentials; in [ONE_WAY] mode
    they are SSL credentials created with no material at all.  In both
    modes nothing is called between the loading of the schema files and the
    creation of the credentials. *)
Theorem credentials_match_mode (a : BaseClient.Args) tr c :
  BaseClient.construct a = (tr, Return c) ->
  let loads := [LoadSync (BaseClient.schema (BaseClient.protoFilePath c));
                LoadSync (BaseClient.milvus (BaseClient.protoFilePath c))] in
  (BaseClient.tlsMode c = DISABLED ->
     tr = (loads ++ [CreateInsecure])%list
     /\ createInsecure = Return (BaseClient.creds c))
  /\ (BaseClient.tlsMode c = ONE_WAY ->
     tr = (loads ++ [CreateSsl None None None])%list
     /\ createSsl None None None None = Return (BaseClient.creds c))
  /\ (In CreateInsecure tr <-> BaseClient.tlsMode c = DISABLED).
Proof.
  intros Hc loads.
  destruct (construct_success a tr c Hc) as (_ & _ & Hmode & _).
  destruct (construct_inv a tr c Hc)
    as (sp & mp & cs & fs & t & _ & _ & _ & _ & _ & Hcreds & _ & Htr & Hpaths & _).
  subst loads. rewrite Hpaths, Htr, Hmode.
  set (cfg := BaseClient.normalize_credentials (BaseClient.initial_config a)) in *.
  destruct (BaseClient.resolve_tlsMode cfg) eqn:Hm.
  - rewrite other_modes_run in Hcreds by discriminate.
    injection Hcreds as <- Hcr.
    split; [auto |]. split; [discriminate |].
    split; [reflexivity |]. intros _. cbn. auto.
  - rewrite other_modes_run in Hcreds by discriminate.
    injection Hcreds as <- Hcr.
    split; [discriminate |]. split; [auto |].
    split; [| discriminate].
    cbn. intros [Hin | [Hin | [Hin | []]]]; discriminate Hin.
  - split; [discriminate |]. split; [discriminate |].
    split; [| discriminate]. intros Hin. exfalso.
    destruct (two_way_has_tls _ Hm) as [tls Htls].
    cbn [In app] in Hin. destruct Hin as [Hin | [Hin | Hin]];
      try discriminate Hin.
    assert (Hin' : In CreateInsecure
                     (fst (BaseClient.resolve_creds TWO_WAY cfg)))
      by (rewrite Hcreds; exact Hin).
    destruct (two_way_run_events cfg tls _ Htls Hin')
      as [(p & Heq & _) | (root & key & chain & Heq)]; discriminate Heq.
Qed.

(** X8.  In [TWO_WAY] mode the root certificate is never missing from the
    credentials: the file at the root-certificate path was read, and its
    content is the first argument of the call of [createSsl] that made the
    credentials of the client. *)
Theorem two_way_root_material (a : BaseClient.Args) tr c :
  BaseClient.construct a = (tr, Return c) ->
  BaseClient.tlsMode c = TWO_WAY ->
  exists tls p b key chain,
    ClientConfig.tls (BaseClient.initial_config a) = Some tls
    /\ ClientConfig.rootCertPath tls = Some p
    /\ readFileSync p = Return b
    /\ In (ReadFileSync p) tr
    /\ In (CreateSsl (Some b) key chain) tr
    /\ createSsl (Some b) key chain (ClientConfig.verifyOptions tls)
       = Return (BaseClient.creds c).
Proof.
  intros Hc Htwo.
  destruct (construct_success a tr c Hc) as (_ & _ & Hmode & _).
  destruct (construct_inv a tr c Hc)
    as (sp & mp & cs & fs & t & _ & _ & _ & _ & _ & Hcreds & _ & Htr & _).
  set (cfg := BaseClient.normalize_credentials (BaseClient.initial_config a)) in *.
  rewrite Htwo in Hmode. symmetry in Hmode. rewrite Hmode in Hcreds.
  destruct (two_way_has_tls _ Hmode) as [tls Htls].
  destruct (two_way_run_return cfg tls t _ Htls Hcreds)
    as (reads & root & key & chain & Ht & _ & [Hroot _] & _ & _ & Hcr).
  assert (Hpresent : Spec.rootCertPath_present cfg)
    by (apply has_rootCertPath_present, two_way_iff_rootCertPath; exact Hmode).
  destruct Hpresent as (tls' & Htls' & p & Hp & Hne).
  rewrite Htls in Htls'. injection Htls' as <-.
  destruct (Hroot p Hp Hne) as (b & Hb & ->).
  assert (Hread : In (ReadFileSync p) (fst (BaseClient.resolve_creds TWO_WAY cfg))).
  { revert Hb. clear - Htls Hp Hne.
    unfold BaseClient.resolve_creds. rewrite Htls, Hp.
    unfold BaseClient.read_if_provided at 1.
    destruct p as [| ch p]; [congruence |]. cbn [is_empty].
    intros Hb. unfold call at 1. rewrite Hb. cbn [bind ret].
    destruct (bind _ _) as [t' r']. cbn. auto. }
  rewrite Hcreds in Hread. cbn [fst] in Hread.
  exists tls, p, b, key, chain.
  split; [exact Htls |]. split; [exact Hp |]. split; [exact Hb |].
  rewrite Htr. split; [| split; [| exact Hcr]].
  - apply in_or_app. right. exact Hread.
  - apply in_or_app. right. rewrite Ht. apply in_or_app. right. cbn. auto.
Qed.

(** X9.  Of the configuration it is given, the constructor changes the two
    credentials of the user and nothing else. *)
Theorem config_kept (a : BaseClient.Args) tr c :
  BaseClient.construct a = (tr, Return c) ->
  let given := BaseClient.initial_config a in
  let stored := BaseClient.config c in
  ClientConfig.address stored = ClientConfig.address given
  /\ ClientConfig.ssl stored = ClientConfig.ssl given
  /\ ClientConfig.channelOptions stored = ClientConfig.channelOptions given
  /\ ClientConfig.id stored = ClientConfig.id given
  /\ ClientConfig.tls stored = ClientConfig.tls given
  /\ ClientConfig.protoFilePath stored = ClientConfig.protoFilePath given
  /\ ClientConfig.timeout stored = ClientConfig.timeout given.
Proof.
  intros Hc given stored.
  destruct (construct_success a tr c Hc) as (_ & Hcfg & _).
  subst stored. rewrite Hcfg. repeat split; reflexivity.
Qed.

(** Two calls of the constructor that work on the same configuration do the
    same. *)
Lemma construct_same_config (a a' : BaseClient.Args) :
  BaseClient.normalize_credentials (BaseClient.initial_config a)
  = BaseClient.normalize_credentials (BaseClient.initial_config a') ->
  BaseClient.construct a = BaseClient.construct a'.
Proof.
  intros Heq. unfold BaseClient.construct.
  change (ClientConfig.address (BaseClient.initial_config a))
    with (ClientConfig.address
            (BaseClient.normalize_credentials (BaseClient.initial_config a))).
  change (ClientConfig.address (BaseClient.initial_config a'))
    with (ClientConfig.address
            (BaseClient.normalize_credentials (BaseClient.initial_config a'))).
  rewrite Heq. reflexivity.
Qed.

(** X10.  The configuration a client keeps is one the constructor accepts
    again and leaves as it is: a second client built from it, whatever the
    other arguments, does the same calls and has the same configuration, TLS
    mode, channel options, schema paths, credentials and timeout. *)
Theorem construct_from_stored_config (a : BaseClient.Args) tr c
    (ssl : option bool) (username password : option string)
    (options : option (gmap string optval)) :
  BaseClient.construct a = (tr, Return c) ->
  exists c',
    BaseClient.construct
      {| BaseClient.configOrAddress := BaseClient.ConfigObject (BaseClient.config c);
         BaseClient.ssl := ssl;
         BaseClient.username := username;
         BaseClient.password := password;
         BaseClient.channelOptions_arg := options |}
    = (tr, Return c')
    /\ BaseClient.config c' = BaseClient.config c
    /\ BaseClient.tlsMode c' = BaseClient.tlsMode c
    /\ BaseClient.channelOptions c' = BaseClient.channelOptions c
    /\ BaseClient.protoFilePath c' = BaseClient.protoFilePath c
    /\ BaseClient.creds c' = BaseClient.creds c
    /\ BaseClient.timeout c' = BaseClient.timeout c.
Proof.
  intros Hc. exists c.
  split; [| repeat split; reflexivity].
  rewrite <- Hc. apply construct_same_config.
  destruct (construct_success a tr c Hc) as (_ & Hcfg & _).
  cbn [BaseClient.initial_config BaseClient.configOrAddress]. rewrite Hcfg.
  unfold BaseClient.normalize_credentials, ClientConfig.with_credentials. cbn.
  destruct (ClientConfig.username (BaseClient.initial_config a)) as [[| ? ?] |];
    destruct (ClientConfig.password (BaseClient.initial_config a)) as [[| ? ?] |];
    reflexivity.
Qed.

(** X11.  A timeout given as a string that the duration-token parser
    rejects makes the constructor throw the parser's error; this happens
    last, when the schema files are loaded and the credentials created. *)
Theorem timeout_token_rejected (a : BaseClient.Args) sp mp cs fs t cr s e :
  let cfg := BaseClient.initial_config a in
  let paths := BaseClient.resolve_protoFilePath cfg in
  Spec.provided (ClientConfig.address cfg) ->
  loadSync (BaseClient.schema paths) = Return sp ->
  loadSync (BaseClient.milvus paths) = Return mp ->
  lookupType sp BaseClient.protoInternalPath_collectionSchema = Return cs ->
  lookupType sp BaseClient.protoInternalPath_fieldSchema = Return fs ->
  BaseClient.resolve_creds (BaseClient.resolve_tlsMode cfg) cfg = (t, Return cr) ->
  ClientConfig.timeout cfg = Some (ClientConfig.Token s) ->
  parseTimeToken s = Throw e ->
  BaseClient.construct a
  = ([LoadSync (BaseClient.schema paths); LoadSync (BaseClient.milvus paths)] ++ t,
     Throw e)%list.
Proof.
  intros cfg paths Haddr Hsp Hmp Hcs Hfs Hcreds Ht He.
  apply truthy_str_provided in Haddr.
  apply (construct_timeout_throw a sp mp cs fs t cr e Haddr Hsp Hmp Hcs Hfs Hcreds).
  unfold BaseClient.resolve_timeout.
  change (ClientConfig.timeout
            (BaseClient.normalize_credentials (BaseClient.initial_config a)))
    with (ClientConfig.timeout cfg).
  rewrite Ht. cbn. exact He.
Qed.

End ConstructorProperties.

(** ** The compatibility gate, in full *)

Section GateOutcomes.
Context `{Host}.

(** X12.  The only ways [checkCompatibility] fails: the connect promise
    rejected, and the call rejects with its reason, whatever the status and
    the argument; or the connect promise fulfilled with the status
    [UNIMPLEMENTED], and either the checker failed or, without a checker, the
    incompatibility error is raised.  In every other status the call does
    not fail of its own. *)
Theorem gate_rejections (this : BaseClient.t)
    (data : option BaseClient.CheckData) e :
  let d := nullish data BaseClient.no_data in
  BaseClient.checkCompatibility this data = Rejects e
  <-> BaseClient.connectPromise this = Rejected e
      \/ (BaseClient.connectPromise this = Fulfilled
          /\ BaseClient.connectStatus this = UNIMPLEMENTED
          /\ match BaseClient.checker d with
             | Some f => f tt = Rejects e
             | None =>
                 e = Error (or_str (BaseClient.message d)
                                   BaseClient.incompatible_message)
             end).
Proof.
  intros d. unfold BaseClient.checkCompatibility. fold d.
  destruct (BaseClient.connectPromise this) as [| reason |].
  - destruct (BaseClient.connectStatus this); cbn [CONNECT_STATUS_eqb].
    1-3, 5: split; [discriminate |];
      intros [Hr | (_ & Hs & _)]; discriminate.
    destruct (BaseClient.checker d) as [f |].
    + split; [intros Hf; right; auto |].
      intros [Hr | (_ & _ & Hf)]; [discriminate Hr | exact Hf].
    + split.
      * intros Heq. injection Heq as <-. right. auto.
      * intros [Hr | (_ & _ & ->)]; [discriminate Hr | reflexivity].
  - split.
    + intros Heq. injection Heq as <-. left. reflexivity.
    + intros [Hr | (Hr & _)]; [injection Hr as <-; reflexivity | discriminate Hr].
  - split; [discriminate |].
    intros [Hr | (Hr & _)]; discriminate Hr.
Qed.

(** X13.  On a client that has just been constructed the gate is open: the
    call resolves to [undefined] for every argument, with or without a
    checker. *)
Theorem gate_open_after_construction (a : BaseClient.Args) tr c
    (data : option BaseClient.CheckData) :
  BaseClient.construct a = (tr, Return c) ->
  BaseClient.checkCompatibility c data = Resolves undefined.
Proof.
  intros Hc.
  destruct (construct_success a tr c Hc) as (_ & _ & _ & _ & _ & _ & Hs & Hp).
  unfold BaseClient.checkCompatibility. rewrite Hp, Hs. reflexivity.
Qed.

End GateOutcomes.

(** ** Requests of [MilvusNode] *)

Section CreateCollectionRuns.
Context `{NodeHost}.

(** X14.  A request without fields, with an empty list of fields, or without
    a (non-empty) collection name is rejected with the error "fields and
    collection_name is needed"; nothing is sent to the server, and this does
    not depend on the schema file. *)
Theorem createCollection_guard (s : MilvusNode.Stub)
    (d : MilvusNode.CreateCollectionReq) :
  MilvusNode.fields d = None \/ MilvusNode.fields d = Some []
  \/ ~ Spec.provided (MilvusNode.collection_name d) ->
  MilvusNode.createCollection s d
  = ([], Rejects (Error "fields and collection_name is needed")).
Proof.
  intros Hbad.
  assert (Hacc : MilvusNode.accepted d = false).
  { unfold MilvusNode.accepted.
    destruct Hbad as [-> | [-> | Hn]]; try reflexivity.
    destruct (MilvusNode.fields d) as [[| f fs] |]; try reflexivity.
    destruct (truthy_str (MilvusNode.collection_name d)) eqn:Ht; [| reflexivity].
    exfalso. apply Hn. unfold Spec.provided.
    destruct (MilvusNode.collection_name d) as [[| ch n] |]; try discriminate Ht.
    eexists. split; [reflexivity | discriminate]. }
  unfold MilvusNode.createCollection. rewrite Hacc. reflexivity.
Qed.

(** A run that sent nothing. *)
Local Ltac nothing_sent :=
  split; [left; reflexivity |];
  split; [intros Hne; exfalso; apply Hne; reflexivity |].

(** X15.  [createCollection] calls the server at most once.  It does so
    exactly when the request is accepted, the schema file loads, both
    message types resolve and the schema encodes; the call is then
    [CreateCollection], its request carries the caller's object unchanged
    beside the encoded schema, and the operation completes as that call
    does. *)
Theorem createCollection_sends_once (s : MilvusNode.Stub)
    (d : MilvusNode.CreateCollectionReq) :
  let run := MilvusNode.createCollection s d in
  (fst run = []
   \/ exists request,
        fst run = [MilvusNode.Rpc "CreateCollection" request]
        /\ MilvusNode.data request = d
        /\ snd run = MilvusNode.promisify s "CreateCollection" request)
  /\ (fst run <> [] <->
      MilvusNode.accepted d = true
      /\ exists root CollectionSchema FieldSchema bytes,
           load schemaPath = Resolves (Some root)
           /\ root_lookupType root "milvus.proto.schema.CollectionSchema"
              = Return CollectionSchema
           /\ root_lookupType root "milvus.proto.schema.FieldSchema"
              = Return FieldSchema
           /\ MilvusNode.encode_finish s CollectionSchema
                (MilvusNode.create_collection s CollectionSchema
                   (MilvusNode.make_payload s FieldSchema d))
              = Return bytes).
Proof.
  intros run. subst run. unfold MilvusNode.createCollection.
  destruct (MilvusNode.accepted d); cbn [negb].
  2: { nothing_sent. intros [Hacc _]. discriminate Hacc. }
  destruct (load schemaPath) as [[root |] | e |].
  2-4: nothing_sent; intros (_ & r & CS & FS & b & Hl & _); discriminate Hl.
  destruct (root_lookupType root "milvus.proto.schema.CollectionSchema")
    as [CS | e] eqn:Hcs.
  2: { nothing_sent.
       intros (_ & r & CS & FS & b & Hl & Hcs' & _).
       injection Hl as <-. rewrite Hcs in Hcs'. discriminate Hcs'. }
  destruct (root_lookupType root "milvus.proto.schema.FieldSchema")
    as [FS | e] eqn:Hfs.
  2: { nothing_sent.
       intros (_ & r & CS' & FS & b & Hl & _ & Hfs' & _).
       injection Hl as <-. rewrite Hfs in Hfs'. discriminate Hfs'. }
  cbn zeta.
  destruct (MilvusNode.encode_finish s CS _) as [bytes | e] eqn:Henc.
  2: { nothing_sent.
       intros (_ & r & CS' & FS' & b & Hl & Hcs' & Hfs' & Henc').
       injection Hl as <-. rewrite Hcs in Hcs'. injection Hcs' as <-.
       rewrite Hfs in Hfs'. injection Hfs' as <-.
       rewrite Henc in Henc'. discriminate Henc'. }
  split.
  - right. eexists. split; [reflexivity |]. split; reflexivity.
  - split; [| cbn; discriminate].
    intros _. split; [reflexivity |]. exists root, CS, FS, bytes. auto.
Qed.

End CreateCollectionRuns.

Section HasCollectionRuns.
Variables Req Resp : Type.
Variable collection_name : Req -> option string.
Variable promisify : string -> Req -> completion Resp.

(** X16.  [hasCollection] asks the server exactly when the request names a
    collection (a non-empty string): it then sends the one call
    [HasCollection] with the caller's object and completes as that call
    does; otherwise it sends nothing and rejects with the error "Collection
    name is empty". *)
Theorem hasCollection_guard (data : Req) :
  let run := MilvusNodeCalls.hasCollection Req Resp collection_name promisify data in
  (Spec.provided (collection_name data) ->
     run = ([("HasCollection", data)], promisify "HasCollection" data))
  /\ (~ Spec.provided (collection_name data) ->
     run = ([], Rejects (Error "Collection name is empty")))
  /\ (fst run <> [] <-> Spec.provided (collection_name data)).
Proof.
  intros run. subst run. unfold MilvusNodeCalls.hasCollection.
  assert (Hp : truthy_str (collection_name data) = true
               <-> Spec.provided (collection_name data)).
  { unfold Spec.provided. destruct (collection_name data) as [[| ch n] |]; cbn.
    - split; [discriminate |]. intros (n & Heq & Hn). congruence.
    - split; [intros _; eexists; split; [reflexivity | discriminate] | reflexivity].
    - split; [discriminate |]. intros (n & Heq & _). discriminate Heq. }
  destruct (truthy_str (collection_name data)); cbn [negb].
  - assert (Hyes : Spec.provided (collection_name data)) by (apply Hp; reflexivity).
    split; [reflexivity |]. split; [contradiction |].
    split; [auto | intros _; discriminate].
  - assert (Hno : ~ Spec.provided (collection_name data)).
    { intros Hyes. apply Hp in Hyes. discriminate Hyes. }
    split; [contradiction |]. split; [reflexivity |].
    split; [intros Hne; exfalso; apply Hne; reflexivity | contradiction].
Qed.

End HasCollectionRuns.

(** * The further properties at work on the sample hosts *)

Lemma construct_returns_witness :
  (exists tr c,
     @BaseClient.construct GrpcLike.host (GrpcLike.args None) = (tr, Return c))
  /\ (exists tr c,
        @BaseClient.construct GrpcLike.host
          (GrpcLike.args (Some GrpcLike.root_only)) = (tr, Return c)).
Proof.
  split.
  - apply (construct_returns (H := GrpcLike.host) (GrpcLike.args None)
             "proto/proto/schema.proto" "proto/proto/milvus.proto"
             "milvus.proto.schema.CollectionSchema"
             "milvus.proto.schema.FieldSchema").
    + exists "localhost:19530". split; [reflexivity | discriminate].
    + reflexivity.
    + reflexivity.
    + reflexivity.
    + reflexivity.
    + cbn. eexists. reflexivity.
    + intros s Hs. discriminate Hs.
  - apply (construct_returns (H := GrpcLike.host)
             (GrpcLike.args (Some GrpcLike.root_only))
             "proto/proto/schema.proto" "proto/proto/milvus.proto"
             "milvus.proto.schema.CollectionSchema"
             "milvus.proto.schema.FieldSchema").
    + exists "localhost:19530". split; [reflexivity | discriminate].
    + reflexivity.
    + reflexivity.
    + reflexivity.
    + reflexivity.
    + cbn. intros tls Htls. injection Htls as <-. split.
      * intros p [Hin Hne]. cbn in Hin.
        destruct Hin as [Hin | [Hin | [Hin | []]]]; try discriminate Hin.
        injection Hin as <-. eexists. vm_compute. reflexivity.
      * intros root key chain _ [_ Hkey] [_ Hchain].
        rewrite Hkey, Hchain.
        -- eexists. reflexivity.
        -- intros (p & Hp & _). discriminate Hp.
        -- intros (p & Hp & _). discriminate Hp.
    + intros s Hs. discriminate Hs.
Defined.

Lemma schema_failure_aborts_witness :
  @BaseClient.construct Faulty.host (Faulty.args (Faulty.schema_at "bad.proto") None)
  = ([LoadSync "bad.proto"], Throw (HostError "ENOENT"))
  /\ snd (@BaseClient.construct Faulty.host
            (Faulty.args (Faulty.milvus_at "bad.proto") None))
     = Throw (HostError "ENOENT")
  /\ snd (@BaseClient.construct Faulty.host
            (Faulty.args (Faulty.schema_at "empty.proto") None))
     = Throw (Error "no such type").
Proof.
  split; [| split].
  - destruct (schema_failure_aborts (H := Faulty.host)
                (Faulty.args (Faulty.schema_at "bad.proto") None)
                (HostError "ENOENT")) as (Hthrow & _ & Htrace).
    + exists "https://host:1". split; [reflexivity | discriminate].
    + left. reflexivity.
    + apply injective_projections; [apply Htrace; reflexivity | exact Hthrow].
  - apply (schema_failure_aborts (H := Faulty.host)
             (Faulty.args (Faulty.milvus_at "bad.proto") None)
             (HostError "ENOENT")).
    + exists "https://host:1". split; [reflexivity | discriminate].
    + right. eexists. split; [reflexivity |]. left. reflexivity.
  - apply (schema_failure_aborts (H := Faulty.host)
             (Faulty.args (Faulty.schema_at "empty.proto") None)
             (Error "no such type")).
    + exists "https://host:1". split; [reflexivity | discriminate].
    + right. eexists. split; [reflexivity |].
      right. eexists. split; [reflexivity |]. left. reflexivity.
Defined.

Lemma construct_trace_shape_witness :
  exists reads ev,
    Sample.mutual_tls_trace
    = ([LoadSync "proto/proto/schema.proto"; LoadSync "proto/proto/milvus.proto"]
       ++ reads ++ [ev])%list
    /\ (forall r, In r reads -> exists p, r = ReadFileSync p)
    /\ is_file_io ev = false.
Proof.
  assert (E : @BaseClient.construct Sample.host
                (Sample.with_config Sample.mutual_tls_config)
              = (Sample.mutual_tls_trace, Return Sample.mutual_tls_client))
    by (vm_compute; reflexivity).
  exact (construct_trace_shape _ _ _ E).
Defined.

Lemma protoFilePath_override_witness :
  BaseClient.schema (BaseClient.protoFilePath Sample2.one_way_client) = ""
  /\ BaseClient.milvus (BaseClient.protoFilePath Sample2.one_way_client)
     = "proto/proto/milvus.proto"
  /\ In (LoadSync "") Sample2.one_way_trace.
Proof.
  assert (E : @BaseClient.construct Sample.host
                (Sample.with_config Sample2.one_way_config)
              = (Sample2.one_way_trace, Return Sample2.one_way_client))
    by (vm_compute; reflexivity).
  destruct (protoFilePath_override _ _ _ E)
    as (Hload & _ & Hschema & _ & _ & Hmilvus & _).
  split; [| split].
  - eapply Hschema; reflexivity.
  - eapply Hmilvus; reflexivity.
  - exact Hload.
Defined.

Lemma clientId_resolution_witness :
  BaseClient.clientId Sample2.one_way_client = "worker-7"
  /\ BaseClient.clientId Sample.mutual_tls_client
     = "00000000-0000-4000-8000-000000000000".
Proof.
  assert (E : @BaseClient.construct Sample.host
                (Sample.with_config Sample2.one_way_config)
              = (Sample2.one_way_trace, Return Sample2.one_way_client))
    by (vm_compute; reflexivity).
  assert (E' : @BaseClient.construct Sample.host
                 (Sample.with_config Sample.mutual_tls_config)
               = (Sample.mutual_tls_trace, Return Sample.mutual_tls_client))
    by (vm_compute; reflexivity).
  split.
  - destruct (clientId_resolution _ _ _ E) as [Hid _].
    apply Hid; [reflexivity | discriminate].
  - destruct (clientId_resolution _ _ _ E') as [_ Hnone].
    apply Hnone. intros (i & Hi & _). discriminate Hi.
Defined.

Lemma read_only_in_two_way_witness :
  In (ReadFileSync "client.key")
     (fst (@BaseClient.construct Sample.host
             (Sample.with_config Sample.mutual_tls_config)))
  /\ @Spec.rootCertPath_present Sample.host Sample.mutual_tls_config.
Proof.
  assert (Hin : In (ReadFileSync "client.key")
                  (fst (@BaseClient.construct Sample.host
                          (Sample.with_config Sample.mutual_tls_config))))
    by (vm_compute; auto 6).
  split; [exact Hin |].
  exact (proj1 (read_only_in_two_way _ _ Hin)).
Defined.

Lemma credentials_match_mode_witness :
  Sample2.one_way_trace
  = [LoadSync ""; LoadSync "proto/proto/milvus.proto"; CreateSsl None None None]
  /\ @createSsl Sample.host None None None None
     = Return (BaseClient.creds Sample2.one_way_client)
  /\ ~ In CreateInsecure Sample2.one_way_trace.
Proof.
  assert (E : @BaseClient.construct Sample.host
                (Sample.with_config Sample2.one_way_config)
              = (Sample2.one_way_trace, Return Sample2.one_way_client))
    by (vm_compute; reflexivity).
  destruct (credentials_match_mode _ _ _ E) as (_ & Hone & Hins).
  destruct (Hone eq_refl) as [Htr Hcr].
  split; [exact Htr |]. split; [exact Hcr |].
  intros Hin. apply Hins in Hin. discriminate Hin.
Defined.

Lemma two_way_root_material_witness :
  exists key chain,
    In (CreateSsl (Some Sample.pem_ca) key chain) Sample.mutual_tls_trace.
Proof.
  assert (E : @BaseClient.construct Sample.host
                (Sample.with_config Sample.mutual_tls_config)
              = (Sample.mutual_tls_trace, Return Sample.mutual_tls_client))
    by (vm_compute; reflexivity).
  destruct (two_way_root_material _ _ _ E eq_refl)
    as (tls & p & b & key & chain & Htls & Hp & Hb & _ & Hin & _).
  injection Htls as <-. injection Hp as <-.
  vm_compute in Hb. injection Hb as <-.
  exists key, chain. exact Hin.
Defined.

Lemma config_kept_witness :
  ClientConfig.tls (BaseClient.config Sample2.one_way_client)
  = ClientConfig.tls Sample2.one_way_config
  /\ ClientConfig.id (BaseClient.config Sample2.one_way_client) = Some "worker-7".
Proof.
  assert (E : @BaseClient.construct Sample.host
                (Sample.with_config Sample2.one_way_config)
              = (Sample2.one_way_trace, Return Sample2.one_way_client))
    by (vm_compute; reflexivity).
  destruct (config_kept _ _ _ E) as (_ & _ & _ & Hid & Htls & _).
  split; [exact Htls | exact Hid].
Defined.

Lemma construct_from_stored_config_witness :
  exists c',
    @BaseClient.construct Sample.host
      {| BaseClient.configOrAddress :=
           BaseClient.ConfigObject (BaseClient.config Sample.mutual_tls_client);
         BaseClient.ssl := Some true;
         BaseClient.username := Some "other";
         BaseClient.password := None;
         BaseClient.channelOptions_arg := None |}
    = (Sample.mutual_tls_trace, Return c')
    /\ BaseClient.tlsMode c' = TWO_WAY.
Proof.
  assert (E : @BaseClient.construct Sample.host
                (Sample.with_config Sample.mutual_tls_config)
              = (Sample.mutual_tls_trace, Return Sample.mutual_tls_client))
    by (vm_compute; reflexivity).
  destruct (construct_from_stored_config _ _ _ (Some true) (Some "other") None None E)
    as (c' & Hrun & _ & Hmode & _).
  exists c'. split; [exact Hrun | exact Hmode].
Defined.

Lemma timeout_token_rejected_witness :
  @BaseClient.construct Faulty.host
    (Faulty.args None (Some (ClientConfig.Token "5s")))
  = ([LoadSync "proto/proto/schema.proto"; LoadSync "proto/proto/milvus.proto";
      CreateSsl None None None],
     Throw (Error "Invalid time token")).
Proof.
  apply (timeout_token_rejected (H := Faulty.host)
           (Faulty.args None (Some (ClientConfig.Token "5s")))
           "proto/proto/schema.proto" "proto/proto/milvus.proto"
           "milvus.proto.schema.CollectionSchema"
           "milvus.proto.schema.FieldSchema"
           [CreateSsl None None None] [None; None; None] "5s"
           (Error "Invalid time token")).
  - exists "https://host:1". split; [reflexivity | discriminate].
  - reflexivity.
  - reflexivity.
  - reflexivity.
  - reflexivity.
  - reflexivity.
  - reflexivity.
  - reflexivity.
Defined.

Lemma gate_rejections_witness :
  BaseClient.checkCompatibility
    (Sample.after_handshake UNIMPLEMENTED (Rejected (HostError "14 UNAVAILABLE")))
    (Some Sample.with_checker)
  = Rejects (HostError "14 UNAVAILABLE").
Proof.
  apply (gate_rejections
           (Sample.after_handshake UNIMPLEMENTED (Rejected (HostError "14 UNAVAILABLE")))
           (Some Sample.with_checker) (HostError "14 UNAVAILABLE")).
  left. reflexivity.
Defined.

Lemma gate_open_after_construction_witness :
  BaseClient.checkCompatibility Sample.mutual_tls_client (Some Sample.with_message)
  = Resolves None.
Proof.
  assert (E : @BaseClient.construct Sample.host
                (Sample.with_config Sample.mutual_tls_config)
              = (Sample.mutual_tls_trace, Return Sample.mutual_tls_client))
    by (vm_compute; reflexivity).
  exact (gate_open_after_construction _ _ _ (Some Sample.with_message) E).
Defined.

Lemma createCollection_guard_witness :
  MilvusNode.createCollection SampleNode.stub
    (@MilvusNode.Build_CreateCollectionReq SampleNode.host
       (Some "c1") None None (Some []))
  = ([], Rejects (Error "fields and collection_name is needed")).
Proof.
  apply (createCollection_guard SampleNode.stub).
  right. left. reflexivity.
Defined.

Lemma createCollection_sends_once_witness :
  fst (MilvusNode.createCollection SampleNode.stub SampleNode.request) <> [].
Proof.
  apply (createCollection_sends_once SampleNode.stub SampleNode.request).
  split; [reflexivity |].
  exists tt, "milvus.proto.schema.CollectionSchema",
    "milvus.proto.schema.FieldSchema", ("c1", true).
  repeat split; reflexivity.
Defined.

Lemma hasCollection_guard_witness :
  MilvusNodeCalls.hasCollection (option string) string (fun r => r)
    Sample2.answer (Some "c1")
  = ([("HasCollection", Some "c1")], Resolves "HasCollection")
  /\ MilvusNodeCalls.hasCollection (option string) string (fun r => r)
       Sample2.answer (Some "")
     = ([], Rejects (Error "Collection name is empty")).
Proof.
  split.
  - apply (hasCollection_guard (option string) string (fun r => r)
             Sample2.answer (Some "c1")).
    exists "c1". split; [reflexivity | discriminate].
  - apply (hasCollection_guard (option string) string (fun r => r)
             Sample2.answer (Some "")).
    intros (n & Hn & Hne). injection Hn as <-. congruence.
Defined.

(** * The security mode over the life of the client *)

Section ObjectRuns.
Context `{Host}.
Import ClientObject.
Local Open Scope obj_scope.















(** *** Running the constructor, statement by statement *)

Lemma after_nil {A : Type} (r : run A) : after [] [] r = r.
Proof. destruct r. reflexivity. Qed.




Lemma seq_read {B : Type} p (k : val -> P B) this :
  seq (read p) k this
  = k (match this !! p with Some v => v | None => VUndefined end) this.
Proof. unfold seq, read. cbn. apply after_nil. Qed.


Lemma seq_host_Throw {A B : Type} (m : M A) (k : A -> P B) this t e :
  m = (t, Throw e) -> seq (host m) k this = Run t [] this (Throw e).
Proof. intros ->. reflexivity. Qed.




















(** The two embeddings of the method agree. *)
Lemma checkCompatibility_agrees (data : option BaseClient.CheckData) this c :
  holds this c ->
  checkCompatibility data this
  = Run [] [] this (Return (BaseClient.checkCompatibility c data)).
Proof.
  intros (_ & Hs & Hp & _).
  unfold checkCompatibility, BaseClient.checkCompatibility.
  rewrite seq_read, Hp.
  destruct (BaseClient.connectPromise c) as [| reason |]; try reflexivity.
  rewrite seq_read, Hs.
  destruct (BaseClient.connectStatus c); try reflexivity.
  cbn [CONNECT_STATUS_eqb].
  destruct (BaseClient.checker (nullish data BaseClient.no_data)); reflexivity.
Qed.



End ObjectRuns.

